(** * Scan action: a shallow embedding of [index.js]

    The action installs the [govulners] scanner, runs it on one source
    (image, directory or SBOM), writes the report and turns the exit code
    of the scanner into a build status.

    JavaScript strings are modelled as [string] (their UTF-8 bytes); the
    only string operations the program uses are concatenation, strict
    equality, truthiness (non-emptiness) and [toLowerCase].  Objects used as maps
    ([env], [out]) and the file system are [gmap string string].
    Every call into [@actions/core], [@actions/exec], [@actions/tool-cache]
    and [fs] is recorded as an [Event] of a trace; what these libraries
    answer is supplied by a [World]. *)

From Stdlib Require Import Ascii ZArith List Lia.
From Stdlib Require String.
From stdpp Require Import base option gmap strings list fin_maps pretty.
Import ListNotations.

Local Open Scope Z_scope.

(** ** JavaScript strings *)

Module JsString.

(** [a + b] on strings and template literals. *)
Definition cat (a b : string) : string := String.append a b.

(** A string is truthy when it is not empty. *)
Definition truthy (s : string) : bool :=
  match s with
  | EmptyString => false
  | String _ _ => true
  end.

(** [a || b] on strings. *)
Definition or_else (a b : string) : string :=
  if truthy a then a else b.

(** [a === b] on strings. *)
Definition strict_eq (a b : string) : bool := String.eqb a b.

(** Lower-casing of one code unit.  Only the letters [A]..[Z] change.
    On a string outside ASCII, JavaScript's [toLowerCase] leaves a
    character outside ASCII in the result, with the one exception of the
    Kelvin sign (which becomes [k]); no string the program compares a
    lower-cased value with contains a [k], so the comparisons of the
    program come out the same. *)
Definition lower_ascii (c : ascii) : ascii :=
  let n := N_of_ascii c in
  if ((65 <=? n) && (n <=? 90))%N then ascii_of_N (n + 32) else c.

Fixpoint toLowerCase (s : string) : string :=
  match s with
  | EmptyString => EmptyString
  | String c rest => String (lower_ascii c) (toLowerCase rest)
  end.

(** [String(b)] for a boolean, as string concatenation does it. *)
Definition of_bool (b : bool) : string :=
  if b then "true" else "false".

(** [xs.join(sep)]. *)
Definition join (sep : string) (xs : list string) : string :=
  String.concat sep xs.

(** [t] occurs inside [s]. *)
Definition occurs_in (t s : string) : Prop :=
  exists before after, s = cat before (cat t after).

(** The same as a test: [s.includes(t)]. *)
Fixpoint includes (s t : string) : bool :=
  String.prefix t s
  || match s with
     | EmptyString => false
     | String _ rest => includes rest t
     end.

End JsString.

Import JsString.
Infix "+++" := cat (at level 60, right associativity).

(** ** Events and actions *)

(** The environment handed to a child process. *)
Abbreviation Env := (gmap string string).

(** The observable calls of the program, in the order they happen. *)
Inductive Event : Type :=
| EvDebug (message : string)                      (* core.debug *)
| EvInfo (message : string)                       (* core.info *)
| EvWarning (message : string)                    (* core.warning *)
| EvSetFailed (message : string)                  (* core.setFailed *)
| EvSetOutput (key value : string)                (* core.setOutput *)
| EvAddPath (dir : string)                        (* core.addPath *)
| EvStartGroup (name : string)                    (* core.group, on entry *)
| EvEndGroup                                      (* core.group, on exit *)
| EvCacheFind (tool version : string)             (* cache.find *)
| EvDownloadTool (url : string)                   (* cache.downloadTool *)
| EvCacheFile (file target tool version : string) (* cache.cacheFile *)
| EvExec (cmd : string) (args : list string) (env : option Env)
                                                  (* exec.exec starts a process *)
| EvWriteFile (path data : string).               (* fs.writeFileSync *)

(** How a JavaScript computation ends. *)
Inductive Outcome (A : Type) : Type :=
| Returned (value : A)
| Thrown (message : string).
Arguments Returned {A} value.
Arguments Thrown {A} message.

(** An action is the trace it leaves and how it ends.  [await] is
    sequencing: the program has one logical thread. *)
Definition Act (A : Type) : Type := (list Event * Outcome A)%type.

Definition trace {A} (m : Act A) : list Event := fst m.
Definition outcome {A} (m : Act A) : Outcome A := snd m.

Definition act_ret {A} (a : A) : Act A := ([], Returned a).

Definition act_bind {A B} (m : Act A) (k : A -> Act B) : Act B :=
  match snd m with
  | Returned a => (fst m ++ fst (k a), snd (k a))
  | Thrown e => (fst m, Thrown e)
  end.

#[global] Instance Act_ret : MRet Act := @act_ret.
#[global] Instance Act_bind : MBind Act := fun A B k m => act_bind m k.

(** [throw new Error(message)]. *)
Definition throw {A} (message : string) : Act A := ([], Thrown message).

(** One call into the host. *)
Definition emit (e : Event) : Act unit := ([e], Returned tt).

(** Several calls in a row. *)
Definition emit_all (es : list Event) : Act unit := (es, Returned tt).

(** [try { body } catch (error) { handler(error.message) }]. *)
Definition try_catch {A} (body : Act A) (handler : string -> Act A) : Act A :=
  match snd body with
  | Returned a => body
  | Thrown e => (fst body ++ fst (handler e), snd (handler e))
  end.

(** [try { body } finally { cleanup }]. *)
Definition try_finally {A} (body : Act A) (cleanup : Act unit) : Act A :=
  match snd cleanup with
  | Returned _ => (fst body ++ fst cleanup, snd body)
  | Thrown e => (fst body ++ fst cleanup, Thrown e)
  end.

(** The file system after a trace: [fs.writeFileSync] replaces the file. *)
Definition write_of (fs : gmap string string) (e : Event) : gmap string string :=
  match e with
  | EvWriteFile path data => <[path := data]> fs
  | _ => fs
  end.

Definition files_after (t : list Event) (fs : gmap string string)
  : gmap string string :=
  fold_left write_of t fs.

(** The run is marked failed when [core.setFailed] was called. *)
Definition is_failure (e : Event) : bool :=
  match e with EvSetFailed _ => true | _ => false end.

Definition is_warning (e : Event) : bool :=
  match e with EvWarning _ => true | _ => false end.

Definition is_write (e : Event) : bool :=
  match e with EvWriteFile _ _ => true | _ => false end.

Definition is_process (e : Event) : bool :=
  match e with EvExec _ _ _ => true | _ => false end.

Definition is_install (e : Event) : bool :=
  match e with
  | EvCacheFind _ _ | EvDownloadTool _ | EvCacheFile _ _ _ _
  | EvAddPath _ | EvExec _ _ _ => true
  | _ => false
  end.

Definition marked_failed (t : list Event) : bool := existsb is_failure t.

(** ** The host *)

(** One piece of what a child process prints, in the order it arrives. *)
Inductive Chunk : Type :=
| OnStdout (data : string)
| OnStderr (data : string)
| OnDebug (message : string).

(** What starting a process gives.  A start that fails has an error
    message; [exec.exec] may already have sent messages to the debug
    listener by then (it does so once the tool is found and before the
    process is spawned). *)
Inductive ExecResult : Type :=
| SpawnFailed (message : string) (debug : list string)
| Exited (code : Z) (output : list Chunk).

(** Everything the program reads from outside.  The answers are fixed for
    the length of one run. *)
Record World : Type := {
  getInput : string -> string;            (* core.getInput *)
  isDebug : bool;                         (* core.isDebug() *)
  process_env : Env;                      (* process.env *)
  now : string;                           (* new Date().toTimeString() *)
  GOVULNERS_VERSION : string;             (* ./GovulnersVersion *)
  cache_find : string -> string -> string;
  cache_downloadTool : string -> Outcome string;
  cache_cacheFile : string -> string -> string -> string -> Outcome string;
  spawn : string -> list string -> option Env -> ExecResult;
  tool_path : string -> string;           (* the tool of a command line,
                                             as [io.which] resolves it *)
}.

(** Lifts an answer of the host into an action. *)
Definition answer {A} (o : Outcome A) : Act A := ([], o).

(** The listeners of [exec.exec]: [stdout] chunks are appended to the
    captured output, the handlers for [stderr] and [debug] are optional. *)
Record Listeners : Type := {
  on_stderr : option (string -> Event);
  on_debug : option (string -> Event);
}.

Definition no_listeners : Listeners :=
  {| on_stderr := None; on_debug := None |}.

(** What the listeners log for one chunk. *)
Definition listen (l : Listeners) (c : Chunk) : list Event :=
  match c with
  | OnStdout _ => []
  | OnStderr s => match on_stderr l with Some h => [h s] | None => [] end
  | OnDebug s => match on_debug l with Some h => [h s] | None => [] end
  end.

Definition stdout_of (c : Chunk) : string :=
  match c with OnStdout s => s | _ => "" end.

(** The captured output: [cmdOutput += buffer.toString()] per chunk. *)
Definition captured (output : list Chunk) : string :=
  fold_left (fun acc c => acc +++ stdout_of c) output "".

(** The error of [exec.exec] for an exit code that is not ignored: it
    names the resolved path of the tool, not the command line. *)
Definition exec_failure (w : World) (cmd : string) (code : Z) : string :=
  "The process '" +++ tool_path w cmd +++ "' failed with exit code " +++
  pretty code.

(** [exec.exec(cmd, args, { env, ignoreReturnCode, listeners })]: starts
    the process, feeds the listeners, and gives the exit code and the
    captured output.  Without [ignoreReturnCode] an exit code other than
    zero is an error.  What [exec.exec] copies to its output stream is
    not a call into the host and leaves no event. *)
Definition exec (w : World) (cmd : string) (args : list string)
    (env : option Env) (ignoreReturnCode : bool) (l : Listeners)
  : Act (Z * string) :=
  emit (EvExec cmd args env) ;;
  match spawn w cmd args env with
  | SpawnFailed message debug =>
      emit_all (concat (map (fun m => listen l (OnDebug m)) debug)) ;;
      throw message
  | Exited code output =>
      emit_all (concat (map (listen l) output)) ;;
      if negb ignoreReturnCode && negb (code =? 0)
      then throw (exec_failure w cmd code)
      else mret (code, captured output)
  end.

(** [core.group(name, fn)]. *)
Definition group {A} (name : string) (fn : Act A) : Act A :=
  emit (EvStartGroup name) ;;
  try_finally fn (emit EvEndGroup).

(** ** The program *)

Definition govulnersBinary : string := "govulners".

(** [core.getInput("govulners-version") || GOVULNERS_VERSION] *)
Definition govulnersVersion (w : World) : string :=
  or_else (getInput w "govulners-version") (GOVULNERS_VERSION w).

Definition downloadGovulners (w : World) (version : string) : Act string :=
  let url := "https://raw.githubusercontent.com/nextlinux/govulners/main/install.sh" in
  emit (EvDebug ("Installing " +++ version)) ;;
  emit (EvDownloadTool url) ;;
  installPath ← answer (cache_downloadTool w url) ;
  exec w ("chmod +x " +++ installPath) [] None false no_listeners ;;
  let cmd := installPath +++ " -b " +++ installPath +++ "_govulners " +++ version in
  exec w cmd [] None false no_listeners ;;
  let govulnersPath := installPath +++ "_govulners/govulners" in
  emit (EvCacheFile govulnersPath "govulners" "govulners" version) ;;
  answer (cache_cacheFile w govulnersPath "govulners" "govulners" version).

Definition installGovulners (w : World) (version : string) : Act string :=
  emit (EvCacheFind govulnersBinary version) ;;
  let govulnersPath := cache_find w govulnersBinary version in
  govulnersPath ←
    (if negb (truthy govulnersPath)
     then downloadGovulners w version
     else mret govulnersPath) ;
  emit (EvAddPath govulnersPath) ;;
  mret (govulnersPath +++ "/" +++ govulnersBinary).

(** Determines if multiple arguments are defined.  The loop carries
    [defined] through the arguments and returns [true] at the first
    defined argument that follows another one. *)
Fixpoint multipleDefined_loop (defined : bool) (args : list string) : bool :=
  match args with
  | [] => false
  | a :: rest =>
      if defined && truthy a then true
      else multipleDefined_loop (if truthy a then true else defined) rest
  end.

Definition multipleDefined (args : list string) : bool :=
  multipleDefined_loop false args.

Definition sourceInput (w : World) : Act string :=
  let image := getInput w "image" in
  let path := getInput w "path" in
  let sbom := getInput w "sbom" in
  if multipleDefined [image; path; sbom] then
    throw "The following options are mutually exclusive: image, path, sbom"
  else if truthy image then mret image
  else if truthy sbom then mret ("sbom:" +++ sbom)
  else
    let path := if negb (truthy path) then "." else path in
    mret ("dir:" +++ path).

(** The argument of [runScan]; every field is a string when [run] calls it. *)
Record ScanOptions : Type := {
  source : string;
  failBuild : string;
  severityCutoff : string;
  onlyFixed : string;
  outputFormat : string;
  addCpesIfNone : string;
}.

Definition SEVERITY_LIST : list string :=
  ["negligible"; "low"; "medium"; "high"; "critical"].
Definition FORMAT_LIST : list string := ["sarif"; "json"; "table"].

(** [LIST.some((item) => typeof v.toLowerCase() === "string" &&
    item === v.toLowerCase())]; the [typeof] test is always true. *)
Definition some_equal (items : list string) (v : string) : bool :=
  existsb (fun item => strict_eq item (toLowerCase v)) items.

Definition invalid_severity_message (severityCutoff : string) : string :=
  "Invalid severity-cutoff value is set to " +++ severityCutoff +++
  " - please ensure you are choosing either negligible, low, medium, high, or critical".

Definition invalid_format_message (outputFormat : string) : string :=
  "Invalid output-format value is set to " +++ outputFormat +++
  " - please ensure you are choosing either json or sarif".

Definition severity_message (severityCutoff : string) : string :=
  "Failed minimum severity level. Found vulnerabilities with level '" +++
  severityCutoff +++ "' or higher".

Definition credentials_warning : string :=
  "WARNING: registry-username and registry-password must be specified together".

Definition scan_listeners : Listeners :=
  {| on_stderr := Some EvInfo; on_debug := Some EvDebug |}.

(** Lines 113-129 of [runScan]: the environment of the child process. *)
Definition registryEnv (w : World) : Act Env :=
  let env : Env := <["GOVULNERS_CHECK_FOR_APP_UPDATE" := "false"]> (process_env w) in
  let registryUser := getInput w "registry-username" in
  let registryPass := getInput w "registry-password" in
  if truthy registryUser || truthy registryPass then
    let env := <["GOVULNERS_REGISTRY_AUTH_USERNAME" := registryUser]> env in
    let env := <["GOVULNERS_REGISTRY_AUTH_PASSWORD" := registryPass]> env in
    (if negb (truthy registryUser) || negb (truthy registryPass)
     then emit (EvWarning credentials_warning)
     else mret tt) ;;
    mret env
  else mret env.

(** Lines 230-245 of [runScan]: the [switch] on the output format. *)
Definition writeReport (outputFormat cmdOutput : string)
    (out : gmap string string) : Act (gmap string string) :=
  if strict_eq outputFormat "sarif" then
    let SARIF_FILE := "./results.sarif" in
    emit (EvWriteFile SARIF_FILE cmdOutput) ;;
    mret (<["sarif" := SARIF_FILE]> out)
  else if strict_eq outputFormat "json" then
    let REPORT_FILE := "./results.json" in
    emit (EvWriteFile REPORT_FILE cmdOutput) ;;
    mret (<["json" := REPORT_FILE]> out)
  else
    emit (EvInfo cmdOutput) ;;
    mret out.

(** Lines 247-265 of [runScan]: the reporting paths of a non-zero exit
    status.  [failBuild] is the boolean of line 139. *)
Definition reportExitCode (exitCode : Z) (severityCutoff : string)
    (failBuild : bool) : Act unit :=
  if exitCode >? 0 then
    if negb (truthy severityCutoff) then
      emit (EvWarning "govulners had a non-zero exit status when running")
    else if failBuild then
      emit (EvSetFailed (severity_message severityCutoff))
    else
      emit (EvWarning (severity_message severityCutoff))
  else mret tt.

Definition runScan (w : World) (o : ScanOptions) : Act (gmap string string) :=
  let out : gmap string string := ∅ in
  env ← registryEnv w ;
  let cmdArgs : list string := [] in
  let cmdArgs := if isDebug w then cmdArgs ++ ["-vv"] else cmdArgs in
  let failBuild := strict_eq (toLowerCase (failBuild o)) "true" in
  let onlyFixed := strict_eq (toLowerCase (onlyFixed o)) "true" in
  let addCpesIfNone := strict_eq (toLowerCase (addCpesIfNone o)) "true" in
  let cmdArgs := cmdArgs ++ ["-o"; outputFormat o] in
  (if negb (some_equal SEVERITY_LIST (severityCutoff o))
   then throw (invalid_severity_message (severityCutoff o))
   else mret tt) ;;
  (if negb (some_equal FORMAT_LIST (outputFormat o))
   then throw (invalid_format_message (outputFormat o))
   else mret tt) ;;
  emit (EvDebug ("Installing govulners version " +++ govulnersVersion w)) ;;
  installGovulners w (govulnersVersion w) ;;
  emit_all
    [ EvDebug ("Source: " +++ source o);
      EvDebug ("Fail Build: " +++ of_bool failBuild);
      EvDebug ("Severity Cutoff: " +++ severityCutoff o);
      EvDebug ("Only Fixed: " +++ of_bool onlyFixed);
      EvDebug ("Add Missing CPEs: " +++ of_bool addCpesIfNone);
      EvDebug ("Output Format: " +++ outputFormat o);
      EvDebug "Creating options for GOVULNERS analyzer" ] ;;
  let cmd := govulnersBinary in
  let cmdArgs :=
    if negb (strict_eq (severityCutoff o) "")
    then (cmdArgs ++ ["--fail-on"]) ++ [toLowerCase (severityCutoff o)]
    else cmdArgs in
  let cmdArgs := if onlyFixed then cmdArgs ++ ["--only-fixed"] else cmdArgs in
  let cmdArgs := if addCpesIfNone then cmdArgs ++ ["--add-cpes-if-none"] else cmdArgs in
  let cmdArgs := cmdArgs ++ [source o] in
  ran ← group (cmd +++ " output...")
    (emit (EvInfo ("Executing: " +++ cmd +++ " " +++ join " " cmdArgs)) ;;
     exec w cmd cmdArgs (Some env) true scan_listeners) ;
  let exitCode := fst ran in
  let cmdOutput := snd ran in
  (if isDebug w
   then emit_all [EvDebug "Govulners output:"; EvDebug cmdOutput]
   else mret tt) ;;
  out ← writeReport (outputFormat o) cmdOutput out ;
  reportExitCode exitCode (severityCutoff o) failBuild ;;
  mret out.

(** The entry point: reads the inputs, scans, publishes the outputs;
    any error marks the run failed with its message. *)
Definition run (w : World) : Act unit :=
  try_catch
    (emit (EvDebug (now w)) ;;
     source ← sourceInput w ;
     let failBuild := or_else (getInput w "fail-build") "true" in
     let outputFormat := or_else (getInput w "output-format") "sarif" in
     let severityCutoff := or_else (getInput w "severity-cutoff") "medium" in
     let onlyFixed := or_else (getInput w "only-fixed") "false" in
     let addCpesIfNone := or_else (getInput w "add-cpes-if-none") "false" in
     out ← runScan w {| source := source; failBuild := failBuild;
                        severityCutoff := severityCutoff; onlyFixed := onlyFixed;
                        outputFormat := outputFormat;
                        addCpesIfNone := addCpesIfNone |} ;
     emit_all (map (fun kv => EvSetOutput (fst kv) (snd kv)) (map_to_list out)))
    (fun message => emit (EvSetFailed message)).

(** ** What [runScan] computes, written out *)

(** The boolean of lines 139-141: [v.toLowerCase() === "true"]. *)
Definition flag (v : string) : bool := strict_eq (toLowerCase v) "true".

(** The argument list of the scanner, in the order of the pushes. *)
Definition scan_args (debug : bool) (o : ScanOptions) : list string :=
  (if debug then ["-vv"] else []) ++
  ["-o"; outputFormat o] ++
  (if truthy (severityCutoff o)
   then ["--fail-on"; toLowerCase (severityCutoff o)] else []) ++
  (if flag (onlyFixed o) then ["--only-fixed"] else []) ++
  (if flag (addCpesIfNone o) then ["--add-cpes-if-none"] else []) ++
  [source o].

(** The environment of the scanner. *)
Definition scan_env (w : World) : Env :=
  let base : Env := <["GOVULNERS_CHECK_FOR_APP_UPDATE" := "false"]> (process_env w) in
  let user := getInput w "registry-username" in
  let pass := getInput w "registry-password" in
  if truthy user || truthy pass
  then <["GOVULNERS_REGISTRY_AUTH_PASSWORD" := pass]>
         (<["GOVULNERS_REGISTRY_AUTH_USERNAME" := user]> base)
  else base.

(** Exactly one of the two credentials is set. *)
Definition one_credential (w : World) : bool :=
  xorb (truthy (getInput w "registry-username"))
       (truthy (getInput w "registry-password")).

(** Both enumerations accept the request. *)
Definition valid_options (o : ScanOptions) : bool :=
  some_equal SEVERITY_LIST (severityCutoff o)
  && some_equal FORMAT_LIST (outputFormat o).

(** What happens before the scanner is started. *)
Definition setup_trace (w : World) (o : ScanOptions) : list Event :=
  trace (registryEnv w) ++
  [EvDebug ("Installing govulners version " +++ govulnersVersion w)] ++
  trace (installGovulners w (govulnersVersion w)) ++
  [ EvDebug ("Source: " +++ source o);
    EvDebug ("Fail Build: " +++ of_bool (flag (failBuild o)));
    EvDebug ("Severity Cutoff: " +++ severityCutoff o);
    EvDebug ("Only Fixed: " +++ of_bool (flag (onlyFixed o)));
    EvDebug ("Add Missing CPEs: " +++ of_bool (flag (addCpesIfNone o)));
    EvDebug ("Output Format: " +++ outputFormat o);
    EvDebug "Creating options for GOVULNERS analyzer";
    EvStartGroup "govulners output...";
    EvInfo ("Executing: govulners " +++ join " " (scan_args (isDebug w) o)) ].

(** What happens while the scanner runs and right after it. *)
Definition capture_trace (w : World) (output : list Chunk) : list Event :=
  concat (map (listen scan_listeners) output) ++
  [EvEndGroup] ++
  (if isDebug w
   then [EvDebug "Govulners output:"; EvDebug (captured output)]
   else []).

(** The number of defined (non-empty) strings among the arguments. *)
Definition defined_count (args : list string) : nat :=
  length (List.filter truthy args).

(** The three raw source inputs of a run. *)
Definition source_inputs (w : World) : list string :=
  [getInput w "image"; getInput w "path"; getInput w "sbom"].

(** An action followed by nothing else: the trace is put in front. *)
Definition prepend {A} (es : list Event) (m : Act A) : Act A :=
  (es ++ fst m, snd m).

(** ** Sample hosts *)

(** Inputs given as a table; a missing input reads as the empty string. *)
Definition inputs_of (table : list (string * string)) (name : string) : string :=
  match find (fun kv => strict_eq (fst kv) name) table with
  | Some kv => snd kv
  | None => ""
  end.

(** A host with the scanner in the tool cache, where every process exits
    with [code] after printing [output]. *)
Definition cached_host (table : list (string * string)) (debug : bool)
    (code : Z) (output : list Chunk) : World :=
  {| getInput := inputs_of table;
     isDebug := debug;
     process_env := {["HOME" := "/home/runner"]};
     now := "12:00:00 GMT+0000 (Coordinated Universal Time)";
     GOVULNERS_VERSION := "v0.1.0";
     cache_find := fun _ _ => "/opt/hostedtoolcache/govulners/0.1.0/x64";
     cache_downloadTool := fun _ => Thrown "getaddrinfo ENOTFOUND";
     cache_cacheFile := fun _ _ _ _ => Thrown "ENOSPC";
     spawn := fun _ _ _ => Exited code output;
     tool_path := fun _ => "/usr/bin/tool" |}.

Definition sample_output : list Chunk :=
  [OnStdout "{x:"; OnStderr "loading db"; OnStdout "1}"].

Definition sample_options (severity format fail : string) : ScanOptions :=
  {| source := "dir:."; failBuild := fail; severityCutoff := severity;
     onlyFixed := "false"; outputFormat := format; addCpesIfNone := "false" |}.

(** ** The rest of the module *)

(** Lines 276-289: what the module does when it is the main module.  A
    promise without a handler for its rejection leaves the error
    unhandled: it is the outcome of [main]. *)
Definition main (w : World) : Act unit :=
  let entrypoint := getInput w "run" in
  if strict_eq entrypoint "download-govulners" then
    path ← installGovulners w (govulnersVersion w) ;
    emit (EvInfo ("Downloaded Govulners to: " +++ path)) ;;
    emit (EvSetOutput "cmd" path)
  else run w.

(** The options [run] hands to [runScan] for a resolved source. *)
Definition run_options (w : World) (source : string) : ScanOptions :=
  {| source := source;
     failBuild := or_else (getInput w "fail-build") "true";
     severityCutoff := or_else (getInput w "severity-cutoff") "medium";
     onlyFixed := or_else (getInput w "only-fixed") "false";
     outputFormat := or_else (getInput w "output-format") "sarif";
     addCpesIfNone := or_else (getInput w "add-cpes-if-none") "false" |}.

Definition is_download (e : Event) : bool :=
  match e with EvDownloadTool _ => true | _ => false end.

Definition is_add_path (e : Event) : bool :=
  match e with EvAddPath _ => true | _ => false end.

Definition is_cache_file (e : Event) : bool :=
  match e with EvCacheFile _ _ _ _ => true | _ => false end.

Definition is_set_output (e : Event) : bool :=
  match e with EvSetOutput _ _ => true | _ => false end.

(** A host with an empty tool cache where download, installer and cache
    all succeed. *)
Definition fresh_host (table : list (string * string)) (code : Z)
    (output : list Chunk) : World :=
  {| getInput := inputs_of table;
     isDebug := false;
     process_env := {["HOME" := "/home/runner"]};
     now := "12:00:00 GMT+0000 (Coordinated Universal Time)";
     GOVULNERS_VERSION := "v0.1.0";
     cache_find := fun _ _ => "";
     cache_downloadTool := fun _ => Returned "/tmp/dl/install";
     cache_cacheFile := fun _ _ _ _ => Returned "/opt/hostedtoolcache/govulners/0.1.0/x64";
     spawn := fun cmd _ _ =>
       if strict_eq cmd "govulners" then Exited code output else Exited 0 [];
     tool_path := fun _ => "/usr/bin/tool" |}.

(** A host whose download fails. *)
Definition offline_host (table : list (string * string)) : World :=
  {| getInput := inputs_of table;
     isDebug := false;
     process_env := ∅;
     now := "12:00:00 GMT+0000 (Coordinated Universal Time)";
     GOVULNERS_VERSION := "v0.1.0";
     cache_find := fun _ _ => "";
     cache_downloadTool := fun _ => Thrown "getaddrinfo ENOTFOUND";
     cache_cacheFile := fun _ _ _ _ => Thrown "ENOSPC";
     spawn := fun _ _ _ =>
       SpawnFailed "spawn ENOENT" ["exec tool: /usr/bin/tool"; "arguments:"];
     tool_path := fun _ => "/usr/bin/tool" |}.

(** A host with the scanner in the cache, where no process can be started. *)
Definition broken_host (table : list (string * string)) : World :=
  {| getInput := inputs_of table;
     isDebug := false;
     process_env := ∅;
     now := "12:00:00 GMT+0000 (Coordinated Universal Time)";
     GOVULNERS_VERSION := "v0.1.0";
     cache_find := fun _ _ => "/opt/hostedtoolcache/govulners/0.1.0/x64";
     cache_downloadTool := fun _ => Thrown "getaddrinfo ENOTFOUND";
     cache_cacheFile := fun _ _ _ _ => Thrown "ENOSPC";
     spawn := fun _ _ _ =>
       SpawnFailed "spawn ENOENT" ["exec tool: /usr/bin/tool"; "arguments:"];
     tool_path := fun _ => "/usr/bin/tool" |}.

(** * Properties *)

(** ** Reasoning about actions *)

Lemma act_eta {A} (m : Act A) : (fst m, snd m) = m.
Proof. by destruct m. Qed.

Lemma prepend_nil {A} (m : Act A) : prepend [] m = m.
Proof. by destruct m. Qed.

Lemma prepend_prepend {A} es1 es2 (m : Act A) :
  prepend es1 (prepend es2 m) = prepend (es1 ++ es2) m.
Proof. unfold prepend; simpl. by rewrite app_assoc. Qed.

Lemma trace_pair {A} (t : list Event) (o : Outcome A) : trace (t, o) = t.
Proof. reflexivity. Qed.

Lemma outcome_pair {A} (t : list Event) (o : Outcome A) : outcome (t, o) = o.
Proof. reflexivity. Qed.

Lemma trace_prepend {A} es (m : Act A) : trace (prepend es m) = es ++ trace m.
Proof. reflexivity. Qed.

Lemma outcome_prepend {A} es (m : Act A) : outcome (prepend es m) = outcome m.
Proof. reflexivity. Qed.

Section ActLaws.
Context {A B : Type}.
Implicit Types (m : Act A) (k : A -> Act B).

Lemma bind_ret (a : A) k : mret a ≫= k = k a.
Proof. unfold mbind, Act_bind, act_bind; simpl. apply act_eta. Qed.

Lemma bind_throw message k : throw message ≫= k = throw message.
Proof. reflexivity. Qed.

Lemma bind_prepend es m k : prepend es m ≫= k = prepend es (m ≫= k).
Proof.
  unfold mbind, Act_bind, act_bind, prepend; simpl.
  destruct (snd m); simpl; [by rewrite app_assoc | done].
Qed.

Lemma bind_returned m k a :
  outcome m = Returned a -> m ≫= k = prepend (trace m) (k a).
Proof.
  unfold mbind, Act_bind, act_bind, outcome, trace. by intros ->.
Qed.

Lemma bind_thrown m k message :
  outcome m = Thrown message -> m ≫= k = (trace m, Thrown message).
Proof.
  unfold mbind, Act_bind, act_bind, outcome, trace. by intros ->.
Qed.
End ActLaws.

Lemma bind_done {A B} (t : list Event) (a : A) (k : A -> Act B) :
  (t, Returned a) ≫= k = prepend t (k a).
Proof. reflexivity. Qed.

Lemma bind_answer {A B} (a : A) (k : A -> Act B) :
  answer (Returned a) ≫= k = k a.
Proof. apply bind_ret. Qed.

Lemma bind_emit {B} (e : Event) (k : unit -> Act B) :
  emit e ≫= k = prepend [e] (k tt).
Proof. reflexivity. Qed.

Lemma bind_emit_all {B} (es : list Event) (k : unit -> Act B) :
  emit_all es ≫= k = prepend es (k tt).
Proof. reflexivity. Qed.

Lemma bind_bind {A B C} (m : Act A) (f : A -> Act B) (g : B -> Act C) :
  (m ≫= f) ≫= g = m ≫= (fun x => f x ≫= g).
Proof.
  unfold mbind, Act_bind, act_bind.
  destruct m as [t [a|e]]; simpl; [|done].
  destruct (f a) as [t' [b|e]]; simpl; [|done].
  by rewrite app_assoc.
Qed.

Lemma exec_exited w cmd args env l code output :
  spawn w cmd args env = Exited code output ->
  exec w cmd args env true l =
    (EvExec cmd args env :: concat (map (listen l) output),
     Returned (code, captured output)).
Proof.
  intros Hspawn. unfold exec. rewrite Hspawn. cbn [negb andb].
  rewrite bind_emit, bind_emit_all.
  unfold prepend; simpl. by rewrite app_nil_r.
Qed.

Lemma exec_spawn_failed w cmd args env ignore l message debug :
  spawn w cmd args env = SpawnFailed message debug ->
  exec w cmd args env ignore l =
    (EvExec cmd args env :: concat (map (fun m => listen l (OnDebug m)) debug),
     Thrown message).
Proof.
  intros Hspawn. unfold exec. rewrite Hspawn.
  rewrite bind_emit, bind_emit_all.
  unfold prepend, throw; cbn [fst snd app]. by rewrite app_nil_r.
Qed.

Lemma group_returned {A} name (fn : Act A) :
  group name fn = (EvStartGroup name :: trace fn ++ [EvEndGroup], outcome fn).
Proof. reflexivity. Qed.

(** ** The steps of [runScan] *)

Lemma strict_eq_empty s : strict_eq s "" = negb (truthy s).
Proof. by destruct s. Qed.

Lemma cmdArgs_closed_form w o :
  (let cmdArgs : list string := [] in
   let cmdArgs := if isDebug w then cmdArgs ++ ["-vv"] else cmdArgs in
   let cmdArgs := cmdArgs ++ ["-o"; outputFormat o] in
   let cmdArgs :=
     if negb (strict_eq (severityCutoff o) "")
     then (cmdArgs ++ ["--fail-on"]) ++ [toLowerCase (severityCutoff o)]
     else cmdArgs in
   let cmdArgs :=
     if strict_eq (toLowerCase (onlyFixed o)) "true"
     then cmdArgs ++ ["--only-fixed"] else cmdArgs in
   let cmdArgs :=
     if strict_eq (toLowerCase (addCpesIfNone o)) "true"
     then cmdArgs ++ ["--add-cpes-if-none"] else cmdArgs in
   cmdArgs ++ [source o]) = scan_args (isDebug w) o.
Proof.
  unfold scan_args, flag. rewrite strict_eq_empty, negb_involutive.
  destruct (isDebug w), (truthy (severityCutoff o)),
    (strict_eq (toLowerCase (onlyFixed o)) "true"),
    (strict_eq (toLowerCase (addCpesIfNone o)) "true"); reflexivity.
Qed.

Lemma registryEnv_outcome w : outcome (registryEnv w) = Returned (scan_env w).
Proof.
  unfold registryEnv, scan_env.
  destruct (truthy (getInput w "registry-username")),
    (truthy (getInput w "registry-password")); reflexivity.
Qed.

Lemma registryEnv_trace w :
  trace (registryEnv w) =
    if one_credential w then [EvWarning credentials_warning] else [].
Proof.
  unfold registryEnv, one_credential.
  destruct (truthy (getInput w "registry-username")),
    (truthy (getInput w "registry-password")); reflexivity.
Qed.

Lemma writeReport_returns format data out :
  exists result, outcome (writeReport format data out) = Returned result.
Proof.
  unfold writeReport.
  destruct (strict_eq format "sarif"); [by eexists|].
  destruct (strict_eq format "json"); by eexists.
Qed.

Lemma reportExitCode_outcome code severity fail :
  outcome (reportExitCode code severity fail) = Returned tt.
Proof.
  unfold reportExitCode.
  by destruct (code >? 0), (truthy severity), fail.
Qed.

(** A completed scan, step by step: the set-up, the scanner, the report,
    the verdict on the exit code. *)
Lemma runScan_completed w o p code output :
  valid_options o = true ->
  outcome (installGovulners w (govulnersVersion w)) = Returned p ->
  spawn w govulnersBinary (scan_args (isDebug w) o) (Some (scan_env w)) = Exited code output ->
  runScan w o =
    (setup_trace w o ++
     [EvExec govulnersBinary (scan_args (isDebug w) o) (Some (scan_env w))] ++
     capture_trace w output ++
     trace (writeReport (outputFormat o) (captured output) ∅) ++
     trace (reportExitCode code (severityCutoff o) (flag (failBuild o))),
     outcome (writeReport (outputFormat o) (captured output) ∅)).
Proof.
  intros [Hsev Hfmt]%andb_prop Hinstall Hspawn.
  unfold runScan. cbv zeta.
  rewrite (bind_returned _ _ _ (registryEnv_outcome w)).
  rewrite Hsev, Hfmt. cbn [negb].
  rewrite !bind_ret, bind_emit, (bind_returned _ _ _ Hinstall), bind_emit_all.
  pose proof (cmdArgs_closed_form w o) as Hargs. cbv zeta in Hargs.
  rewrite Hargs. clear Hargs.
  rewrite group_returned, bind_emit, (exec_exited _ _ _ _ _ _ _ Hspawn).
  destruct (writeReport_returns (outputFormat o) (captured output) ∅)
    as [result Hreport].
  cbn [trace outcome prepend fst snd]. rewrite bind_done. cbn [fst snd].
  set (dump := if isDebug w then _ else _).
  assert (Hdump : dump = (trace dump, Returned tt))
    by (subst dump; by destruct (isDebug w)).
  rewrite Hdump, bind_done, (bind_returned _ _ _ Hreport).
  rewrite (bind_returned _ _ _ (reportExitCode_outcome _ _ _)).
  rewrite Hreport.
  unfold prepend, setup_trace, capture_trace, flag; cbn [fst snd trace].
  f_equal. subst dump. clear Hdump.
  change (mret result).1 with (@nil Event). rewrite app_nil_r.
  rewrite <- !app_assoc. do 3 f_equal.
  destruct (isDebug w); simpl; rewrite <- ?app_assoc; reflexivity.
Qed.

Lemma listen_debug_scan debug :
  concat (map (fun m => listen scan_listeners (OnDebug m)) debug) =
    map EvDebug debug.
Proof.
  induction debug as [|m rest IH]; [reflexivity|].
  change (EvDebug m ::
          concat (map (fun m => listen scan_listeners (OnDebug m)) rest) =
          EvDebug m :: map EvDebug rest).
  by rewrite IH.
Qed.

Lemma listen_debug_nothing debug :
  concat (map (fun m => listen no_listeners (OnDebug m)) debug) = [].
Proof. induction debug as [|m rest IH]; [reflexivity|exact IH]. Qed.

Lemma debug_events_plain (P : Event -> bool) debug :
  (forall m, P (EvDebug m) = false) ->
  existsb P (map EvDebug debug) = false.
Proof.
  intros Hdebug. induction debug as [|m rest IH]; [reflexivity|].
  cbn [map existsb]. by rewrite Hdebug, IH.
Qed.

(** The scanner could not be started: the group is closed and the error
    is passed on. *)
Lemma runScan_spawn_failed w o p message debug :
  valid_options o = true ->
  outcome (installGovulners w (govulnersVersion w)) = Returned p ->
  spawn w govulnersBinary (scan_args (isDebug w) o) (Some (scan_env w))
    = SpawnFailed message debug ->
  runScan w o =
    (setup_trace w o ++
     [EvExec govulnersBinary (scan_args (isDebug w) o) (Some (scan_env w))] ++
     map EvDebug debug ++ [EvEndGroup],
     Thrown message).
Proof.
  intros [Hsev Hfmt]%andb_prop Hinstall Hspawn.
  unfold runScan. cbv zeta.
  rewrite (bind_returned _ _ _ (registryEnv_outcome w)).
  rewrite Hsev, Hfmt. cbn [negb].
  rewrite !bind_ret, bind_emit, (bind_returned _ _ _ Hinstall), bind_emit_all.
  pose proof (cmdArgs_closed_form w o) as Hargs. cbv zeta in Hargs.
  rewrite Hargs. clear Hargs.
  rewrite group_returned, bind_emit, (exec_spawn_failed _ _ _ _ _ _ _ _ Hspawn).
  rewrite listen_debug_scan.
  unfold prepend, setup_trace; cbn [fst snd trace outcome].
  unfold mbind, Act_bind, act_bind; cbn [fst snd].
  f_equal. rewrite <- !app_assoc. do 3 f_equal.
Qed.

(** The two enumeration checks come right after the credentials. *)
Lemma runScan_invalid_severity w o :
  some_equal SEVERITY_LIST (severityCutoff o) = false ->
  runScan w o =
    (trace (registryEnv w), Thrown (invalid_severity_message (severityCutoff o))).
Proof.
  intros Hsev. unfold runScan. cbv zeta.
  rewrite (bind_returned _ _ _ (registryEnv_outcome w)).
  rewrite Hsev. cbn [negb]. rewrite bind_throw.
  unfold prepend, throw; cbn [fst snd]. by rewrite app_nil_r.
Qed.

Lemma runScan_invalid_format w o :
  some_equal SEVERITY_LIST (severityCutoff o) = true ->
  some_equal FORMAT_LIST (outputFormat o) = false ->
  runScan w o =
    (trace (registryEnv w), Thrown (invalid_format_message (outputFormat o))).
Proof.
  intros Hsev Hfmt. unfold runScan. cbv zeta.
  rewrite (bind_returned _ _ _ (registryEnv_outcome w)).
  rewrite Hsev, Hfmt. cbn [negb]. rewrite bind_ret, bind_throw.
  unfold prepend, throw; cbn [fst snd]. by rewrite app_nil_r.
Qed.

(** Once both checks pass the installation is started. *)
Lemma runScan_valid_starts_install w o :
  valid_options o = true ->
  exists rest,
    trace (runScan w o) =
      trace (registryEnv w) ++
      EvDebug ("Installing govulners version " +++ govulnersVersion w) ::
      EvCacheFind govulnersBinary (govulnersVersion w) :: rest.
Proof.
  intros [Hsev Hfmt]%andb_prop.
  unfold runScan. cbv zeta.
  rewrite (bind_returned _ _ _ (registryEnv_outcome w)).
  rewrite Hsev, Hfmt. cbn [negb].
  rewrite !bind_ret, bind_emit.
  unfold installGovulners. cbv zeta. rewrite bind_bind, bind_emit.
  rewrite !trace_prepend. simpl. eauto.
Qed.

(** ** The kinds of events each step can leave *)

Section Kinds.
Variable P : Event -> bool.

Lemma listen_scan_plain output :
  (forall m, P (EvDebug m) = false) ->
  (forall m, P (EvInfo m) = false) ->
  existsb P (concat (map (listen scan_listeners) output)) = false.
Proof.
  intros Hdebug Hinfo. induction output as [|[data|data|data] rest IH];
    simpl; rewrite ?Hdebug, ?Hinfo; auto.
Qed.

Lemma capture_trace_plain w output :
  (forall m, P (EvDebug m) = false) ->
  (forall m, P (EvInfo m) = false) ->
  P EvEndGroup = false ->
  existsb P (capture_trace w output) = false.
Proof.
  intros Hdebug Hinfo Hend. unfold capture_trace.
  rewrite !existsb_app, listen_scan_plain by done.
  destruct (isDebug w); simpl; by rewrite ?Hend, ?Hdebug.
Qed.

Lemma listen_nothing output :
  concat (map (listen no_listeners) output) = [].
Proof. induction output as [|[?|?|?] rest IH]; simpl; auto. Qed.

Lemma exec_plain w cmd args env :
  (forall c a e, P (EvExec c a e) = false) ->
  existsb P (trace (exec w cmd args env false no_listeners)) = false.
Proof.
  intros Hexec. unfold exec. rewrite bind_emit, trace_prepend.
  destruct (spawn w cmd args env) as [message debug|code output].
  - rewrite listen_debug_nothing. simpl. by rewrite Hexec.
  - rewrite listen_nothing. cbn [negb andb].
    destruct (negb (code =? 0)); simpl; by rewrite Hexec.
Qed.

Lemma plain_bind {A B} (m : Act A) (k : A -> Act B) :
  existsb P (trace m) = false ->
  (forall a, existsb P (trace (k a)) = false) ->
  existsb P (trace (m ≫= k)) = false.
Proof.
  intros Hm Hk. destruct m as [t [a|e]]; [|exact Hm].
  rewrite bind_done, trace_prepend, existsb_app.
  cbn [trace fst] in Hm. by rewrite Hm, Hk.
Qed.

Lemma plain_emit e : P e = false -> existsb P (trace (emit e)) = false.
Proof. intros He. cbn. by rewrite He. Qed.

Lemma plain_answer {A} (o : Outcome A) : existsb P (trace (answer o)) = false.
Proof. reflexivity. Qed.

Lemma installGovulners_plain w version :
  (forall m, P (EvDebug m) = false) ->
  (forall t v, P (EvCacheFind t v) = false) ->
  (forall u, P (EvDownloadTool u) = false) ->
  (forall f t n v, P (EvCacheFile f t n v) = false) ->
  (forall d, P (EvAddPath d) = false) ->
  (forall c a e, P (EvExec c a e) = false) ->
  existsb P (trace (installGovulners w version)) = false.
Proof.
  intros Hdebug Hfind Hdown Hfile Hpath Hexec.
  unfold installGovulners. cbv zeta.
  apply plain_bind; [by apply plain_emit|intros _].
  apply plain_bind; [|intros path; apply plain_bind;
                       [by apply plain_emit|reflexivity]].
  destruct (negb _); [|reflexivity].
  unfold downloadGovulners. cbv zeta.
  repeat (apply plain_bind;
          [first [by apply plain_emit | apply plain_answer
                 | by apply exec_plain]
          |intros ?]).
  apply plain_answer.
Qed.
End Kinds.

Section MoreKinds.
Variable P : Event -> bool.
Hypothesis P_debug : forall m, P (EvDebug m) = false.
Hypothesis P_info : forall m, P (EvInfo m) = false.
Hypothesis P_start : forall n, P (EvStartGroup n) = false.
Hypothesis P_find : forall t v, P (EvCacheFind t v) = false.
Hypothesis P_download : forall u, P (EvDownloadTool u) = false.
Hypothesis P_file : forall f t n v, P (EvCacheFile f t n v) = false.
Hypothesis P_path : forall d, P (EvAddPath d) = false.
Hypothesis P_exec : forall c a e, P (EvExec c a e) = false.

(** Everything of the set-up that follows the credentials. *)
Lemma setup_trace_plain w o :
  exists rest,
    setup_trace w o = trace (registryEnv w) ++ rest /\
    existsb P rest = false.
Proof.
  unfold setup_trace. eexists; split; [reflexivity|].
  rewrite !existsb_app, installGovulners_plain by done.
  cbn. by rewrite !P_debug, P_start, P_info.
Qed.
End MoreKinds.

Lemma existsb_false_In {A} (P : A -> bool) (l : list A) (x : A) :
  existsb P l = false -> In x l -> P x = false.
Proof.
  intros Hl Hx. destruct (P x) eqn:HP; [|done].
  assert (existsb P l = true) by (apply existsb_exists; eauto). congruence.
Qed.

Lemma registryEnv_plain (P : Event -> bool) w :
  P (EvWarning credentials_warning) = false ->
  existsb P (trace (registryEnv w)) = false.
Proof.
  intros HP. rewrite registryEnv_trace.
  destruct (one_credential w); cbn; by rewrite ?HP.
Qed.

Lemma setup_trace_not_failed w o : marked_failed (setup_trace w o) = false.
Proof.
  destruct (setup_trace_plain is_failure) with (w := w) (o := o)
    as (rest & -> & Hrest); try done.
  unfold marked_failed. by rewrite existsb_app, registryEnv_plain, Hrest.
Qed.

Lemma setup_trace_no_write w o : existsb is_write (setup_trace w o) = false.
Proof.
  destruct (setup_trace_plain is_write) with (w := w) (o := o)
    as (rest & -> & Hrest); try done.
  by rewrite existsb_app, registryEnv_plain, Hrest.
Qed.

Lemma setup_trace_warnings w o message :
  In (EvWarning message) (setup_trace w o) ->
  message = credentials_warning /\ one_credential w = true.
Proof.
  destruct (setup_trace_plain is_warning) with (w := w) (o := o)
    as (rest & -> & Hrest); try done.
  rewrite in_app_iff, registryEnv_trace. intros [Hin|Hin].
  - destruct (one_credential w); [|done].
    destruct Hin as [[= <-]|[]]. done.
  - by apply (existsb_false_In _ _ _ Hrest) in Hin.
Qed.

(** The file system only changes at [fs.writeFileSync]. *)
Lemma files_after_app t1 t2 fs :
  files_after (t1 ++ t2) fs = files_after t2 (files_after t1 fs).
Proof. apply fold_left_app. Qed.

Lemma files_after_plain t fs :
  existsb is_write t = false -> files_after t fs = fs.
Proof.
  revert fs. induction t as [|e t IH]; intros fs Hplain; [reflexivity|].
  cbn [existsb] in Hplain. apply orb_false_elim in Hplain as [He Ht].
  change (files_after t (write_of fs e) = fs).
  rewrite (IH _ Ht). by destruct e.
Qed.

(** The three ways of the [switch]. *)
Lemma writeReport_sarif data out :
  writeReport "sarif" data out =
    ([EvWriteFile "./results.sarif" data],
     Returned (<["sarif" := "./results.sarif"]> out)).
Proof. reflexivity. Qed.

Lemma writeReport_json data out :
  writeReport "json" data out =
    ([EvWriteFile "./results.json" data],
     Returned (<["json" := "./results.json"]> out)).
Proof. reflexivity. Qed.

Lemma writeReport_other format data out :
  format <> "sarif" -> format <> "json" ->
  writeReport format data out = ([EvInfo data], Returned out).
Proof.
  intros Hsarif Hjson. unfold writeReport, strict_eq.
  destruct (String.eqb_spec format "sarif"); [done|].
  destruct (String.eqb_spec format "json"); done.
Qed.

Lemma writeReport_not_failed format data out :
  marked_failed (trace (writeReport format data out)) = false.
Proof.
  unfold writeReport.
  destruct (strict_eq format "sarif"); [done|].
  by destruct (strict_eq format "json").
Qed.

Lemma writeReport_no_warning format data out :
  existsb is_warning (trace (writeReport format data out)) = false.
Proof.
  unfold writeReport.
  destruct (strict_eq format "sarif"); [done|].
  by destruct (strict_eq format "json").
Qed.

Lemma writeReport_no_process format data out :
  existsb is_process (trace (writeReport format data out)) = false.
Proof.
  unfold writeReport.
  destruct (strict_eq format "sarif"); [done|].
  by destruct (strict_eq format "json").
Qed.

Lemma reportExitCode_no_write code severity fail :
  existsb is_write (trace (reportExitCode code severity fail)) = false.
Proof.
  unfold reportExitCode.
  by destruct (code >? 0), (truthy severity), fail.
Qed.

Lemma reportExitCode_no_process code severity fail :
  existsb is_process (trace (reportExitCode code severity fail)) = false.
Proof.
  unfold reportExitCode.
  by destruct (code >? 0), (truthy severity), fail.
Qed.

(** An accepted severity is not the empty string. *)
Lemma some_equal_spec items v :
  some_equal items v = true <-> In (toLowerCase v) items.
Proof.
  unfold some_equal, strict_eq. rewrite existsb_exists. split.
  - intros (item & Hin & Heq). apply String.eqb_eq in Heq. by subst.
  - intros Hin. exists (toLowerCase v). split; [done|apply String.eqb_refl].
Qed.

Lemma valid_severity_truthy v :
  some_equal SEVERITY_LIST v = true -> truthy v = true.
Proof. by destruct v. Qed.

(** The scanner is started with the arguments and the environment above,
    and it is the last process of the run. *)
Lemma runScan_started w o p :
  valid_options o = true ->
  outcome (installGovulners w (govulnersVersion w)) = Returned p ->
  exists after,
    trace (runScan w o) =
      setup_trace w o ++
      EvExec govulnersBinary (scan_args (isDebug w) o) (Some (scan_env w)) :: after /\
    existsb is_process after = false.
Proof.
  intros Hvalid Hinstall.
  destruct (spawn w govulnersBinary (scan_args (isDebug w) o) (Some (scan_env w)))
    as [message|code output] eqn:Hspawn.
  - rewrite (runScan_spawn_failed _ _ _ _ _ Hvalid Hinstall Hspawn).
    eexists; split; [reflexivity|].
    cbn [app]. by rewrite existsb_app, debug_events_plain.
  - rewrite (runScan_completed _ _ _ _ _ Hvalid Hinstall Hspawn).
    eexists; split; [reflexivity|].
    by rewrite !existsb_app, capture_trace_plain, writeReport_no_process,
      reportExitCode_no_process.
Qed.

(** ** The source of the scan *)

Lemma multipleDefined_loop_count defined args :
  multipleDefined_loop defined args =
    (2 <=? (if defined then 1 else 0) + defined_count args)%nat.
Proof.
  revert defined. induction args as [|a rest IH]; intros defined.
  - by destruct defined.
  - cbn [multipleDefined_loop]. unfold defined_count in *. cbn [List.filter].
    destruct defined, (truthy a); cbn [andb length]; rewrite ?IH; done.
Qed.

Lemma multipleDefined_count args :
  multipleDefined args = (2 <=? defined_count args)%nat.
Proof. apply multipleDefined_loop_count. Qed.

Lemma occurs_in_intro before t after : occurs_in t (before +++ t +++ after).
Proof. by exists before, after. Qed.

(** C4.  When more than one of the inputs [image], [path] and [sbom] is
    non-empty, [sourceInput] throws the error that names the three as
    mutually exclusive and returns no source; [run] then marks the run
    failed with that message and does nothing else. *)
Theorem sourceInput_rejects_multiple (w : World) :
  (1 < defined_count (source_inputs w))%nat ->
  sourceInput w =
    throw "The following options are mutually exclusive: image, path, sbom" /\
  occurs_in "image"
    "The following options are mutually exclusive: image, path, sbom" /\
  occurs_in "path"
    "The following options are mutually exclusive: image, path, sbom" /\
  occurs_in "sbom"
    "The following options are mutually exclusive: image, path, sbom" /\
  run w =
    ([EvDebug (now w);
      EvSetFailed "The following options are mutually exclusive: image, path, sbom"],
     Returned tt).
Proof.
  intros Hmany.
  assert (Hthrow : sourceInput w =
    throw "The following options are mutually exclusive: image, path, sbom").
  { unfold sourceInput. cbv zeta.
    change [getInput w "image"; getInput w "path"; getInput w "sbom"]
      with (source_inputs w).
    rewrite multipleDefined_count.
    by destruct (Nat.leb_spec 2 (defined_count (source_inputs w))); [|lia]. }
  split; [exact Hthrow|].
  split; [exact (occurs_in_intro "The following options are mutually exclusive: "
                   "image" ", path, sbom")|].
  split; [exact (occurs_in_intro
                   "The following options are mutually exclusive: image, "
                   "path" ", sbom")|].
  split; [exact (occurs_in_intro
                   "The following options are mutually exclusive: image, path, "
                   "sbom" "")|].
  unfold run. rewrite bind_emit, Hthrow, bind_throw. reflexivity.
Qed.

Lemma sourceInput_rejects_multiple_witness :
  (1 < defined_count
         (source_inputs
            (cached_host [("image", "alpine:3.18"); ("sbom", "bom.json")]
               false 0 [])))%nat /\
  sourceInput
    (cached_host [("image", "alpine:3.18"); ("sbom", "bom.json")] false 0 []) =
    throw "The following options are mutually exclusive: image, path, sbom".
Proof.
  split; [vm_compute; lia|].
  apply (sourceInput_rejects_multiple
           (cached_host [("image", "alpine:3.18"); ("sbom", "bom.json")]
              false 0 [])).
  vm_compute; lia.
Defined.

(** C5.  When at most one of the three inputs is non-empty, [sourceInput]
    returns [image] unchanged when it is set, otherwise [sbom] behind the
    marker [sbom:] when it is set, otherwise [path] (or [.] when [path] is
    empty) behind the marker [dir:]; with all three empty it returns
    [dir:.]. *)
Theorem sourceInput_resolves (w : World) :
  (defined_count (source_inputs w) <= 1)%nat ->
  sourceInput w =
    mret (if truthy (getInput w "image") then getInput w "image"
          else if truthy (getInput w "sbom") then "sbom:" +++ getInput w "sbom"
          else if truthy (getInput w "path") then "dir:" +++ getInput w "path"
          else "dir:" +++ ".") /\
  (getInput w "image" = "" -> getInput w "path" = "" ->
   getInput w "sbom" = "" -> sourceInput w = mret "dir:.").
Proof.
  intros Hone.
  assert (Hpass : multipleDefined (source_inputs w) = false).
  { rewrite multipleDefined_count. apply Nat.leb_gt. lia. }
  unfold sourceInput. cbv zeta.
  change [getInput w "image"; getInput w "path"; getInput w "sbom"]
    with (source_inputs w).
  rewrite Hpass. split.
  - destruct (truthy (getInput w "image")); [done|].
    destruct (truthy (getInput w "sbom")); [done|].
    by destruct (truthy (getInput w "path")).
  - by intros -> -> ->.
Qed.

Lemma sourceInput_resolves_witness :
  (defined_count
     (source_inputs (cached_host [("sbom", "bom.json")] false 0 [])) <= 1)%nat /\
  sourceInput (cached_host [("sbom", "bom.json")] false 0 []) =
    mret "sbom:bom.json".
Proof.
  split; [vm_compute; lia|].
  apply (sourceInput_resolves (cached_host [("sbom", "bom.json")] false 0 [])).
  vm_compute; lia.
Defined.

(** ** The verdict on the exit code *)

Lemma reportExitCode_zero severity fail :
  reportExitCode 0 severity fail = ([], Returned tt).
Proof. reflexivity. Qed.

Lemma reportExitCode_positive code severity fail :
  code > 0 -> truthy severity = true ->
  reportExitCode code severity fail =
    ([if fail then EvSetFailed (severity_message severity)
      else EvWarning (severity_message severity)], Returned tt).
Proof.
  intros Hcode Hsev. unfold reportExitCode. rewrite Hsev.
  destruct (Z.gtb_spec code 0); [|lia]. by destruct fail.
Qed.

(** Everything of a completed scan up to and including the report. *)
Lemma completed_prefix_not_failed w o data output :
  marked_failed
    (setup_trace w o ++
     [EvExec govulnersBinary (scan_args (isDebug w) o) (Some (scan_env w))] ++
     capture_trace w output ++
     trace (writeReport (outputFormat o) data ∅)) = false.
Proof.
  unfold marked_failed.
  rewrite !existsb_app, capture_trace_plain by done.
  fold (marked_failed (setup_trace w o)).
  fold (marked_failed (trace (writeReport (outputFormat o) data ∅))).
  by rewrite setup_trace_not_failed, writeReport_not_failed.
Qed.

Lemma completed_prefix_warnings w o data output message :
  In (EvWarning message)
    (setup_trace w o ++
     [EvExec govulnersBinary (scan_args (isDebug w) o) (Some (scan_env w))] ++
     capture_trace w output ++
     trace (writeReport (outputFormat o) data ∅)) ->
  message = credentials_warning /\ one_credential w = true.
Proof.
  rewrite !in_app_iff. intros [Hin|[Hin|[Hin|Hin]]].
  - by apply setup_trace_warnings in Hin.
  - by destruct Hin as [|[]].
  - apply (existsb_false_In is_warning) in Hin; [done|].
    by apply capture_trace_plain.
  - apply (existsb_false_In is_warning) in Hin; [done|].
    apply writeReport_no_warning.
Qed.

(** C1.  A scan that reaches the verdict on the exit code has a non-empty
    [severityCutoff].  Its trace is a part [before] (everything up to and
    including the report), which holds no failure and no warning other
    than the one about the registry credentials, followed by the verdict:
    nothing when the exit code is 0; one [core.setFailed] with the message
    that names the severity cutoff when the exit code is positive and
    [failBuild] is true; one [core.warning] with the same message, and no
    failure, when the exit code is positive and [failBuild] is false. *)
Theorem exit_code_verdict (w : World) (o : ScanOptions) (p : string)
    (code : Z) (output : list Chunk) :
  valid_options o = true ->
  outcome (installGovulners w (govulnersVersion w)) = Returned p ->
  spawn w govulnersBinary (scan_args (isDebug w) o) (Some (scan_env w))
    = Exited code output ->
  truthy (severityCutoff o) = true /\
  occurs_in (severityCutoff o) (severity_message (severityCutoff o)) /\
  exists before,
    marked_failed before = false /\
    (forall message, In (EvWarning message) before ->
       message = credentials_warning /\ one_credential w = true) /\
    (code = 0 -> trace (runScan w o) = before) /\
    (code > 0 -> flag (failBuild o) = true ->
       trace (runScan w o) =
         before ++ [EvSetFailed (severity_message (severityCutoff o))]) /\
    (code > 0 -> flag (failBuild o) = false ->
       trace (runScan w o) =
         before ++ [EvWarning (severity_message (severityCutoff o))] /\
       marked_failed (trace (runScan w o)) = false).
Proof.
  intros Hvalid Hinstall Hspawn.
  assert (Hsev : truthy (severityCutoff o) = true).
  { apply andb_prop in Hvalid as [Hsev _]. by apply valid_severity_truthy. }
  split; [exact Hsev|].
  split; [apply occurs_in_intro|].
  rewrite (runScan_completed _ _ _ _ _ Hvalid Hinstall Hspawn).
  cbn [trace fst].
  exists (setup_trace w o ++
     [EvExec govulnersBinary (scan_args (isDebug w) o) (Some (scan_env w))] ++
     capture_trace w output ++
     trace (writeReport (outputFormat o) (captured output) ∅)).
  split; [apply completed_prefix_not_failed|].
  split; [intros message; apply completed_prefix_warnings|].
  split; [|split].
  - intros ->. rewrite reportExitCode_zero. cbn [trace fst].
    by rewrite app_nil_r.
  - intros Hcode Hfail.
    rewrite (reportExitCode_positive _ _ _ Hcode Hsev), Hfail. cbn [trace fst].
    by rewrite <- ?app_assoc.
  - intros Hcode Hfail.
    rewrite (reportExitCode_positive _ _ _ Hcode Hsev), Hfail. cbn [trace fst].
    split; [by rewrite <- ?app_assoc|].
    pose proof (completed_prefix_not_failed w o (captured output) output) as Hpre.
    unfold marked_failed in *. rewrite !existsb_app in *.
    cbn [existsb is_failure orb]. by rewrite !orb_false_r.
Qed.

Lemma exit_code_verdict_witness :
  exists before,
    marked_failed before = false /\
    trace (runScan (cached_host [] false 2 sample_output)
             (sample_options "high" "json" "true")) =
      before ++
      [EvSetFailed
         "Failed minimum severity level. Found vulnerabilities with level 'high' or higher"].
Proof.
  destruct (exit_code_verdict (cached_host [] false 2 sample_output)
              (sample_options "high" "json" "true")
              "/opt/hostedtoolcache/govulners/0.1.0/x64/govulners"
              2 sample_output)
    as (_ & _ & before & Hquiet & _ & _ & Hfail & _);
    [reflexivity | reflexivity | reflexivity |].
  exists before. split; [exact Hquiet|].
  apply Hfail; [lia | reflexivity].
Defined.

(** ** The registry credentials *)

Lemma scan_env_update_check w :
  scan_env w !! "GOVULNERS_CHECK_FOR_APP_UPDATE" = Some "false".
Proof.
  unfold scan_env. cbv zeta.
  destruct (truthy _ || truthy _);
    by rewrite ?lookup_insert_ne, lookup_insert_eq by done.
Qed.

Lemma scan_env_credentials w :
  truthy (getInput w "registry-username")
  || truthy (getInput w "registry-password") = true ->
  scan_env w !! "GOVULNERS_REGISTRY_AUTH_USERNAME"
    = Some (getInput w "registry-username") /\
  scan_env w !! "GOVULNERS_REGISTRY_AUTH_PASSWORD"
    = Some (getInput w "registry-password").
Proof.
  intros Hset. unfold scan_env. cbv zeta. rewrite Hset. split.
  - by rewrite lookup_insert_ne, lookup_insert_eq by done.
  - by rewrite lookup_insert_eq.
Qed.

(** The claim that a lone credential is withheld from the scanner fails:
    with only the user name set (and none inherited from the process
    environment), the scanner is started with the user name in
    [GOVULNERS_REGISTRY_AUTH_USERNAME]. *)
Lemma lone_credential_is_passed :
  ~ (forall (w : World) (o : ScanOptions) (args : list string) (env : Env),
       one_credential w = true ->
       process_env w !! "GOVULNERS_REGISTRY_AUTH_USERNAME" = None ->
       process_env w !! "GOVULNERS_REGISTRY_AUTH_PASSWORD" = None ->
       In (EvExec govulnersBinary args (Some env)) (trace (runScan w o)) ->
       env !! "GOVULNERS_REGISTRY_AUTH_USERNAME" = None /\
       env !! "GOVULNERS_REGISTRY_AUTH_PASSWORD" = None).
Proof.
  intros Hclaim.
  destruct (Hclaim
    (cached_host [("registry-username", "bob")] false 0 sample_output)
    (sample_options "medium" "sarif" "true")
    ["-o"; "sarif"; "--fail-on"; "medium"; "dir:."]
    (scan_env (cached_host [("registry-username", "bob")] false 0 sample_output)))
    as [Huser _]; try reflexivity.
  - vm_compute. do 13 right. left. reflexivity.
  - vm_compute in Huser. discriminate.
Qed.

(** C2, as the code has it.  In every invocation with exactly one of the
    two credentials set the warning is the first event.  When the scanner
    is started, its environment switches the update check off and, as
    soon as one credential is set, carries both
    [GOVULNERS_REGISTRY_AUTH_USERNAME] and [GOVULNERS_REGISTRY_AUTH_PASSWORD]
    with the values of the inputs (the empty string for the one that is
    not set); with both set nothing before the scanner is a warning.  The
    argument list is [scan_args], which reads the debug switch and the
    options only, never a credential. *)
Theorem registry_credentials (w : World) (o : ScanOptions) (p : string) :
  valid_options o = true ->
  outcome (installGovulners w (govulnersVersion w)) = Returned p ->
  (one_credential w = true ->
     exists rest, trace (runScan w o) = EvWarning credentials_warning :: rest) /\
  exists before after,
    trace (runScan w o) =
      before ++
      EvExec govulnersBinary (scan_args (isDebug w) o) (Some (scan_env w))
      :: after /\
    existsb is_process after = false /\
    scan_env w !! "GOVULNERS_CHECK_FOR_APP_UPDATE" = Some "false" /\
    (truthy (getInput w "registry-username")
     || truthy (getInput w "registry-password") = true ->
       scan_env w !! "GOVULNERS_REGISTRY_AUTH_USERNAME"
         = Some (getInput w "registry-username") /\
       scan_env w !! "GOVULNERS_REGISTRY_AUTH_PASSWORD"
         = Some (getInput w "registry-password")) /\
    (truthy (getInput w "registry-username")
     && truthy (getInput w "registry-password") = true ->
       existsb is_warning before = false).
Proof.
  intros Hvalid Hinstall.
  destruct (runScan_started _ _ _ Hvalid Hinstall) as (after & Htrace & Hlast).
  destruct (setup_trace_plain is_warning) with (w := w) (o := o)
    as (rest & Hsetup & Hrest); try done.
  split.
  - intros Hone. rewrite Htrace, Hsetup, registryEnv_trace, Hone.
    by eexists.
  - exists (setup_trace w o), after.
    split; [exact Htrace|]. split; [exact Hlast|].
    split; [apply scan_env_update_check|].
    split; [apply scan_env_credentials|].
    intros [Huser Hpass]%andb_prop.
    rewrite Hsetup, existsb_app, Hrest, registryEnv_trace.
    unfold one_credential. by rewrite Huser, Hpass.
Qed.

Lemma registry_credentials_witness :
  exists before after,
    trace (runScan
             (cached_host [("registry-username", "bob");
                           ("registry-password", "s3cret")] false 0 sample_output)
             (sample_options "medium" "sarif" "true")) =
      before ++
      EvExec "govulners" ["-o"; "sarif"; "--fail-on"; "medium"; "dir:."]
        (Some (<["GOVULNERS_REGISTRY_AUTH_PASSWORD" := "s3cret"]>
                 (<["GOVULNERS_REGISTRY_AUTH_USERNAME" := "bob"]>
                    (<["GOVULNERS_CHECK_FOR_APP_UPDATE" := "false"]>
                       {["HOME" := "/home/runner"]}))))
      :: after /\
    existsb is_warning before = false.
Proof.
  destruct (registry_credentials
              (cached_host [("registry-username", "bob");
                            ("registry-password", "s3cret")] false 0 sample_output)
              (sample_options "medium" "sarif" "true")
              "/opt/hostedtoolcache/govulners/0.1.0/x64/govulners")
    as (_ & before & after & Htrace & _ & _ & _ & Hquiet);
    [reflexivity | reflexivity |].
  exists before, after. split; [exact Htrace|].
  apply Hquiet. reflexivity.
Defined.

(** ** An empty severity cutoff *)

(** [runScan] itself refuses an empty [severityCutoff] at the check of
    lines 145-155, before anything is installed or started. *)
Lemma runScan_refuses_empty_cutoff (w : World) (o : ScanOptions) :
  severityCutoff o = "" ->
  runScan w o = (trace (registryEnv w), Thrown (invalid_severity_message "")) /\
  existsb is_install (trace (runScan w o)) = false.
Proof.
  intros Hempty.
  assert (Hrun : runScan w o =
    (trace (registryEnv w), Thrown (invalid_severity_message ""))).
  { rewrite runScan_invalid_severity; rewrite Hempty; reflexivity. }
  split; [exact Hrun|]. rewrite Hrun, trace_pair.
  by apply registryEnv_plain.
Qed.



(** ** The checks of the two enumerations *)

Lemma cat_assoc a b c : (a +++ b) +++ c = a +++ b +++ c.
Proof.
  unfold cat. induction a as [|ch a IH]; [reflexivity|].
  change (String ch (String.append (String.append a b) c) =
          String ch (String.append a (String.append b c))).
  by rewrite IH.
Qed.

Lemma occurs_in_after t s prefix : occurs_in t s -> occurs_in t (prefix +++ s).
Proof.
  intros (before & after & ->). exists (prefix +++ before), after.
  by rewrite cat_assoc.
Qed.

Lemma invalid_severity_message_names v :
  occurs_in "severity-cutoff" (invalid_severity_message v) /\
  Forall (fun item => occurs_in item (invalid_severity_message v)) SEVERITY_LIST.
Proof.
  split.
  { by exists "Invalid ",
      (" value is set to " +++ v +++
       " - please ensure you are choosing either negligible, low, medium, high, or critical"). }
  unfold invalid_severity_message.
  repeat constructor; do 2 apply occurs_in_after.
  - by exists " - please ensure you are choosing either ",
      ", low, medium, high, or critical".
  - by exists " - please ensure you are choosing either negligible, ",
      ", medium, high, or critical".
  - by exists " - please ensure you are choosing either negligible, low, ",
      ", high, or critical".
  - by exists " - please ensure you are choosing either negligible, low, medium, ",
      ", or critical".
  - by exists
      " - please ensure you are choosing either negligible, low, medium, high, or ",
      "".
Qed.

Lemma invalid_format_message_names v :
  occurs_in "output-format" (invalid_format_message v) /\
  occurs_in "json" (invalid_format_message v) /\
  occurs_in "sarif" (invalid_format_message v).
Proof.
  split.
  { by exists "Invalid ",
      (" value is set to " +++ v +++
       " - please ensure you are choosing either json or sarif"). }
  unfold invalid_format_message. split; do 2 apply occurs_in_after.
  - by exists " - please ensure you are choosing either ", " or sarif".
  - by exists " - please ensure you are choosing either json or ", "".
Qed.

(** C6.  Both values are compared in lower case with the lists.  A
    [severityCutoff] outside its list ends the scan with the error that
    names [severity-cutoff] and the five values, and a format outside its
    list with the error that names [output-format], [json] and [sarif];
    in both cases nothing is installed and no process is started.  When
    both are accepted the installation is the next step.  The error about
    the format does not name [table], which the list accepts: for the
    format [xml] it reads "... either json or sarif". *)
Theorem validation_gate (w : World) (o : ScanOptions) :
  (some_equal SEVERITY_LIST (severityCutoff o) = true <->
     In (toLowerCase (severityCutoff o)) SEVERITY_LIST) /\
  (some_equal FORMAT_LIST (outputFormat o) = true <->
     In (toLowerCase (outputFormat o)) FORMAT_LIST) /\
  (if some_equal SEVERITY_LIST (severityCutoff o) then
     if some_equal FORMAT_LIST (outputFormat o) then
       exists rest,
         trace (runScan w o) =
           trace (registryEnv w) ++
           EvDebug ("Installing govulners version " +++ govulnersVersion w) ::
           EvCacheFind govulnersBinary (govulnersVersion w) :: rest
     else
       runScan w o =
         (trace (registryEnv w), Thrown (invalid_format_message (outputFormat o))) /\
       existsb is_install (trace (runScan w o)) = false
   else
     runScan w o =
       (trace (registryEnv w),
        Thrown (invalid_severity_message (severityCutoff o))) /\
     existsb is_install (trace (runScan w o)) = false) /\
  occurs_in "severity-cutoff" (invalid_severity_message (severityCutoff o)) /\
  Forall (fun item => occurs_in item (invalid_severity_message (severityCutoff o)))
    SEVERITY_LIST /\
  occurs_in "output-format" (invalid_format_message (outputFormat o)) /\
  occurs_in "json" (invalid_format_message (outputFormat o)) /\
  occurs_in "sarif" (invalid_format_message (outputFormat o)) /\
  some_equal FORMAT_LIST "table" = true /\
  includes (invalid_format_message "xml") "table" = false /\
  runScan (cached_host [] false 0 sample_output)
    (sample_options "medium" "xml" "true") =
    ([], Thrown
           "Invalid output-format value is set to xml - please ensure you are choosing either json or sarif").
Proof.
  split; [apply some_equal_spec|]. split; [apply some_equal_spec|].
  split.
  { destruct (some_equal SEVERITY_LIST (severityCutoff o)) eqn:Hsev;
      [destruct (some_equal FORMAT_LIST (outputFormat o)) eqn:Hfmt|].
    - apply runScan_valid_starts_install. unfold valid_options.
      by rewrite Hsev, Hfmt.
    - rewrite (runScan_invalid_format _ _ Hsev Hfmt).
      split; [done|]. by apply registryEnv_plain.
    - rewrite (runScan_invalid_severity _ _ Hsev).
      split; [done|]. by apply registryEnv_plain. }
  split; [apply invalid_severity_message_names|].
  split; [apply invalid_severity_message_names|].
  split; [apply invalid_format_message_names|].
  split; [apply invalid_format_message_names|].
  split; [apply invalid_format_message_names|].
  split; [reflexivity|]. split; reflexivity.
Qed.

(** ** The arguments of the scanner *)

(** C7.  For a valid request whose installation succeeds, the scanner is
    started as the last process of the run with these arguments, in this
    order: [-vv] in debug mode; [-o] and the output format as given;
    [--fail-on] and the severity cutoff in lower case when the cutoff is
    not empty; [--only-fixed] when [onlyFixed] is true;
    [--add-cpes-if-none] when [addCpesIfNone] is true; the source last. *)
Theorem scanner_arguments (w : World) (o : ScanOptions) (p : string) :
  valid_options o = true ->
  outcome (installGovulners w (govulnersVersion w)) = Returned p ->
  exists before env after,
    trace (runScan w o) =
      before ++
      EvExec "govulners"
        ((if isDebug w then ["-vv"] else []) ++
         ["-o"; outputFormat o] ++
         (if truthy (severityCutoff o)
          then ["--fail-on"; toLowerCase (severityCutoff o)] else []) ++
         (if strict_eq (toLowerCase (onlyFixed o)) "true"
          then ["--only-fixed"] else []) ++
         (if strict_eq (toLowerCase (addCpesIfNone o)) "true"
          then ["--add-cpes-if-none"] else []) ++
         [source o])
        env
      :: after /\
    existsb is_process after = false /\
    truthy (severityCutoff o) = true.
Proof.
  intros Hvalid Hinstall.
  destruct (runScan_started _ _ _ Hvalid Hinstall) as (after & Htrace & Hlast).
  exists (setup_trace w o), (Some (scan_env w)), after.
  split; [exact Htrace|]. split; [exact Hlast|].
  apply andb_prop in Hvalid as [Hsev _]. by apply valid_severity_truthy.
Qed.

Lemma scanner_arguments_witness :
  exists before env after,
    trace (runScan (cached_host [] true 0 sample_output)
             {| source := "alpine:3.18"; failBuild := "false";
                severityCutoff := "High"; onlyFixed := "TRUE";
                outputFormat := "table"; addCpesIfNone := "true" |}) =
      before ++
      EvExec "govulners"
        ["-vv"; "-o"; "table"; "--fail-on"; "high"; "--only-fixed";
         "--add-cpes-if-none"; "alpine:3.18"] env
      :: after.
Proof.
  destruct (scanner_arguments (cached_host [] true 0 sample_output)
              {| source := "alpine:3.18"; failBuild := "false";
                 severityCutoff := "High"; onlyFixed := "TRUE";
                 outputFormat := "table"; addCpesIfNone := "true" |}
              "/opt/hostedtoolcache/govulners/0.1.0/x64/govulners")
    as (before & env & after & Htrace & _);
    [reflexivity | reflexivity |].
  exists before, env, after. exact Htrace.
Defined.

(** ** The report *)

(** The file system after a completed scan is the one after the report. *)
Lemma completed_files w o code output fs :
  files_after
    (setup_trace w o ++
     [EvExec govulnersBinary (scan_args (isDebug w) o) (Some (scan_env w))] ++
     capture_trace w output ++
     trace (writeReport (outputFormat o) (captured output) ∅) ++
     trace (reportExitCode code (severityCutoff o) (flag (failBuild o)))) fs =
  files_after (trace (writeReport (outputFormat o) (captured output) ∅)) fs.
Proof.
  rewrite !files_after_app.
  rewrite (files_after_plain (setup_trace w o)) by apply setup_trace_no_write.
  rewrite (files_after_plain [_]) by done.
  rewrite (files_after_plain (capture_trace w output))
    by by apply capture_trace_plain.
  apply files_after_plain, reportExitCode_no_write.
Qed.

Lemma completed_writes w o code output :
  List.filter is_write
    (setup_trace w o ++
     [EvExec govulnersBinary (scan_args (isDebug w) o) (Some (scan_env w))] ++
     capture_trace w output ++
     trace (writeReport (outputFormat o) (captured output) ∅) ++
     trace (reportExitCode code (severityCutoff o) (flag (failBuild o)))) =
  List.filter is_write (trace (writeReport (outputFormat o) (captured output) ∅)).
Proof.
  assert (Hnone : forall t, existsb is_write t = false -> List.filter is_write t = []).
  { induction t as [|e t IH]; [done|]. cbn.
    intros [-> Ht]%orb_false_elim. auto. }
  rewrite !List.filter_app.
  rewrite (Hnone (setup_trace w o)) by apply setup_trace_no_write.
  rewrite (Hnone (capture_trace w output)) by by apply capture_trace_plain.
  rewrite (Hnone (trace (reportExitCode _ _ _))) by apply reportExitCode_no_write.
  cbn. by rewrite app_nil_r.
Qed.

(** C8.  A completed scan with the format [json] writes the captured
    output, and nothing else, to [./results.json] and returns the map
    with the one key [json] for that path; with [sarif] the same holds
    for [./results.sarif] and the key [sarif]; with [table] it writes no
    file, returns the empty map and sends the captured output to
    [core.info]. *)
Theorem report_by_format (w : World) (o : ScanOptions) (p : string)
    (code : Z) (output : list Chunk) (fs : gmap string string) :
  valid_options o = true ->
  outcome (installGovulners w (govulnersVersion w)) = Returned p ->
  spawn w govulnersBinary (scan_args (isDebug w) o) (Some (scan_env w))
    = Exited code output ->
  (outputFormat o = "json" ->
     outcome (runScan w o) = Returned {["json" := "./results.json"]} /\
     ({["json" := "./results.json"]} : gmap string string) !! "sarif" = None /\
     List.filter is_write (trace (runScan w o)) =
       [EvWriteFile "./results.json" (captured output)] /\
     files_after (trace (runScan w o)) fs =
       <["./results.json" := captured output]> fs) /\
  (outputFormat o = "sarif" ->
     outcome (runScan w o) = Returned {["sarif" := "./results.sarif"]} /\
     ({["sarif" := "./results.sarif"]} : gmap string string) !! "json" = None /\
     List.filter is_write (trace (runScan w o)) =
       [EvWriteFile "./results.sarif" (captured output)] /\
     files_after (trace (runScan w o)) fs =
       <["./results.sarif" := captured output]> fs) /\
  (outputFormat o = "table" ->
     outcome (runScan w o) = Returned ∅ /\
     List.filter is_write (trace (runScan w o)) = [] /\
     files_after (trace (runScan w o)) fs = fs /\
     In (EvInfo (captured output)) (trace (runScan w o))).
Proof.
  intros Hvalid Hinstall Hspawn.
  rewrite (runScan_completed _ _ _ _ _ Hvalid Hinstall Hspawn).
  cbn [trace outcome fst snd].
  rewrite completed_files, completed_writes.
  split; [|split]; intros ->.
  - rewrite writeReport_json. by rewrite insert_empty.
  - rewrite writeReport_sarif. by rewrite insert_empty.
  - rewrite writeReport_other by done. repeat split.
    rewrite !in_app_iff. do 3 right. left. by left.
Qed.

Lemma report_by_format_witness :
  outcome (runScan (cached_host [] false 0 sample_output)
             (sample_options "medium" "json" "true"))
    = Returned {["json" := "./results.json"]} /\
  files_after
    (trace (runScan (cached_host [] false 0 sample_output)
              (sample_options "medium" "json" "true"))) ∅
    = <["./results.json" := "{x:1}"]> ∅.
Proof.
  destruct (report_by_format (cached_host [] false 0 sample_output)
              (sample_options "medium" "json" "true")
              "/opt/hostedtoolcache/govulners/0.1.0/x64/govulners"
              0 sample_output ∅)
    as ((Hout & _ & _ & Hfiles) & _);
    [reflexivity | reflexivity | reflexivity | reflexivity |].
  split; [exact Hout | exact Hfiles].
Defined.




(** C10.  The report step compares the format as it was given.  A format
    that the check accepts (in any letter case) but that is not exactly
    [sarif] or [json], such as [SARIF], [Json] or [TABLE], makes a
    completed scan write no file, return the empty map and send the
    captured output to [core.info]. *)
Theorem report_format_is_case_sensitive (w : World) (o : ScanOptions)
    (p : string) (code : Z) (output : list Chunk) (fs : gmap string string) :
  valid_options o = true ->
  outcome (installGovulners w (govulnersVersion w)) = Returned p ->
  spawn w govulnersBinary (scan_args (isDebug w) o) (Some (scan_env w))
    = Exited code output ->
  outputFormat o <> "sarif" ->
  outputFormat o <> "json" ->
  outcome (runScan w o) = Returned ∅ /\
  List.filter is_write (trace (runScan w o)) = [] /\
  files_after (trace (runScan w o)) fs = fs /\
  In (EvInfo (captured output)) (trace (runScan w o)) /\
  some_equal FORMAT_LIST "SARIF" = true /\
  some_equal FORMAT_LIST "Json" = true /\
  some_equal FORMAT_LIST "TABLE" = true.
Proof.
  intros Hvalid Hinstall Hspawn Hsarif Hjson.
  rewrite (runScan_completed _ _ _ _ _ Hvalid Hinstall Hspawn).
  cbn [trace outcome fst snd].
  rewrite completed_files, completed_writes.
  rewrite writeReport_other by done. repeat split.
  rewrite !in_app_iff. do 3 right. left. by left.
Qed.

Lemma report_format_is_case_sensitive_witness :
  outcome (runScan (cached_host [] false 0 sample_output)
             (sample_options "medium" "SARIF" "true")) = Returned ∅ /\
  In (EvInfo "{x:1}")
    (trace (runScan (cached_host [] false 0 sample_output)
              (sample_options "medium" "SARIF" "true"))).
Proof.
  destruct (report_format_is_case_sensitive
              (cached_host [] false 0 sample_output)
              (sample_options "medium" "SARIF" "true")
              "/opt/hostedtoolcache/govulners/0.1.0/x64/govulners"
              0 sample_output ∅)
    as (Hout & _ & _ & Hinfo & _);
    [reflexivity | reflexivity | reflexivity | discriminate | discriminate |].
  split; [exact Hout | exact Hinfo].
Defined.


(** * More of the module *)

(** ** Installing the scanner *)

Lemma try_catch_returned {A} (body : Act A) handler a :
  outcome body = Returned a -> try_catch body handler = body.
Proof. unfold try_catch, outcome. by intros ->. Qed.

Lemma try_catch_thrown {A} (body : Act A) handler message :
  outcome body = Thrown message ->
  try_catch body handler =
    (trace body ++ trace (handler message), outcome (handler message)).
Proof. unfold try_catch, outcome. by intros ->. Qed.

Lemma exec_checked_zero w cmd output :
  spawn w cmd [] None = Exited 0 output ->
  exec w cmd [] None false no_listeners =
    ([EvExec cmd [] None], Returned (0, captured output)).
Proof.
  intros Hspawn. unfold exec. rewrite Hspawn. cbn [negb andb Z.eqb].
  rewrite bind_emit, bind_emit_all, listen_nothing. reflexivity.
Qed.

Lemma exec_checked_nonzero w cmd code output :
  spawn w cmd [] None = Exited code output -> code <> 0 ->
  exec w cmd [] None false no_listeners =
    ([EvExec cmd [] None], Thrown (exec_failure w cmd code)).
Proof.
  intros Hspawn Hcode. unfold exec. rewrite Hspawn. cbn [negb andb].
  destruct (Z.eqb_spec code 0); [done|]. cbn [negb].
  rewrite bind_emit, bind_emit_all, listen_nothing. reflexivity.
Qed.

(** X1.  [installGovulners] asks the tool cache first and downloads the
    installer exactly when the cache has no entry; with an entry it
    starts no process, caches nothing, adds the cached directory to the
    path and returns the binary inside it. *)
Theorem install_downloads_iff_cache_miss (w : World) (version : string) :
  existsb is_download (trace (installGovulners w version)) =
    negb (truthy (cache_find w govulnersBinary version)) /\
  (truthy (cache_find w govulnersBinary version) = true ->
     installGovulners w version =
       ([EvCacheFind "govulners" version;
         EvAddPath (cache_find w govulnersBinary version)],
        Returned (cache_find w govulnersBinary version +++ "/govulners"))).
Proof.
  split.
  - unfold installGovulners. cbv zeta. rewrite bind_emit, trace_prepend.
    destruct (truthy (cache_find w govulnersBinary version)); cbn [negb].
    + by rewrite bind_ret, bind_emit.
    + unfold downloadGovulners. cbv zeta.
      rewrite !bind_bind, !bind_emit, !trace_prepend. reflexivity.
  - intros Hhit. unfold installGovulners. cbv zeta. rewrite Hhit. cbn [negb].
    by rewrite bind_emit, bind_ret, bind_emit.
Qed.

(** X2.  With no cache entry and every step succeeding, the steps of the
    installation happen in this order: the download of the installer,
    [chmod +x] on it, the installer with the target directory and the
    version, the registration in the tool cache, the addition of the
    cached directory to the path; the result is the binary in the cached
    directory. *)
Theorem install_cache_miss_steps (w : World) (version installPath cached : string)
    (out1 out2 : list Chunk) :
  cache_find w govulnersBinary version = "" ->
  cache_downloadTool w
    "https://raw.githubusercontent.com/nextlinux/govulners/main/install.sh"
    = Returned installPath ->
  spawn w ("chmod +x " +++ installPath) [] None = Exited 0 out1 ->
  spawn w (installPath +++ " -b " +++ installPath +++ "_govulners " +++ version)
    [] None = Exited 0 out2 ->
  cache_cacheFile w (installPath +++ "_govulners/govulners")
    "govulners" "govulners" version = Returned cached ->
  installGovulners w version =
    ([EvCacheFind "govulners" version;
      EvDebug ("Installing " +++ version);
      EvDownloadTool
        "https://raw.githubusercontent.com/nextlinux/govulners/main/install.sh";
      EvExec ("chmod +x " +++ installPath) [] None;
      EvExec (installPath +++ " -b " +++ installPath +++ "_govulners " +++ version)
        [] None;
      EvCacheFile (installPath +++ "_govulners/govulners")
        "govulners" "govulners" version;
      EvAddPath cached],
     Returned (cached +++ "/govulners")).
Proof.
  intros Hmiss Hdownload Hchmod Hinstaller Hcache.
  unfold installGovulners, downloadGovulners. cbv zeta.
  rewrite Hmiss. cbn [truthy negb].
  rewrite !bind_bind, !bind_emit, Hdownload, bind_answer, !bind_bind.
  rewrite (exec_checked_zero _ _ _ Hchmod), bind_done.
  rewrite (exec_checked_zero _ _ _ Hinstaller), bind_done.
  rewrite bind_emit, Hcache, bind_answer, bind_emit.
  reflexivity.
Qed.

Lemma install_cache_miss_steps_witness :
  outcome (installGovulners (fresh_host [] 0 sample_output) "v0.1.0") =
    Returned "/opt/hostedtoolcache/govulners/0.1.0/x64/govulners".
Proof.
  rewrite (install_cache_miss_steps (fresh_host [] 0 sample_output) "v0.1.0"
             "/tmp/dl/install" "/opt/hostedtoolcache/govulners/0.1.0/x64" [] []);
    reflexivity.
Defined.

(** X3.  A failing step ends the installation at once: when [chmod]
    exits with a code other than zero the installer is never started,
    nothing is registered in the tool cache and nothing is added to the
    path; the error is the one of [exec.exec], which names the resolved
    path of [chmod] and the exit code. *)
Theorem install_stops_at_failed_chmod (w : World)
    (version installPath : string) (code : Z) (output : list Chunk) :
  cache_find w govulnersBinary version = "" ->
  cache_downloadTool w
    "https://raw.githubusercontent.com/nextlinux/govulners/main/install.sh"
    = Returned installPath ->
  spawn w ("chmod +x " +++ installPath) [] None = Exited code output ->
  code <> 0 ->
  installGovulners w version =
    ([EvCacheFind "govulners" version;
      EvDebug ("Installing " +++ version);
      EvDownloadTool
        "https://raw.githubusercontent.com/nextlinux/govulners/main/install.sh";
      EvExec ("chmod +x " +++ installPath) [] None],
     Thrown ("The process '" +++ tool_path w ("chmod +x " +++ installPath) +++
             "' failed with exit code " +++ pretty code)).
Proof.
  intros Hmiss Hdownload Hchmod Hcode.
  unfold installGovulners, downloadGovulners. cbv zeta.
  rewrite Hmiss. cbn [truthy negb].
  rewrite !bind_bind, !bind_emit, Hdownload, bind_answer, !bind_bind.
  rewrite (exec_checked_nonzero _ _ _ _ Hchmod Hcode).
  reflexivity.
Qed.

Lemma install_stops_at_failed_chmod_witness :
  existsb is_add_path
    (trace (installGovulners
              {| getInput := inputs_of [];
                 isDebug := false;
                 process_env := ∅;
                 now := "";
                 GOVULNERS_VERSION := "v0.1.0";
                 cache_find := fun _ _ => "";
                 cache_downloadTool := fun _ => Returned "/tmp/dl/install";
                 cache_cacheFile := fun _ _ _ _ => Returned "/opt/cache";
                 spawn := fun _ _ _ => Exited 1 [];
                 tool_path := fun _ => "/usr/bin/chmod" |} "v0.1.0")) = false.
Proof.
  rewrite (install_stops_at_failed_chmod _ "v0.1.0" "/tmp/dl/install" 1 []);
    [reflexivity | reflexivity | reflexivity | reflexivity | lia].
Defined.

(** X4.  The directory of the scanner is added to the path exactly when
    the installation succeeds: a successful installation ends with
    [core.addPath] of one directory and returns the binary in that
    directory; a failed one never calls [core.addPath]. *)
Theorem install_adds_path_on_success (w : World) (version : string) :
  match outcome (installGovulners w version) with
  | Returned binary =>
      exists before dir,
        trace (installGovulners w version) = before ++ [EvAddPath dir] /\
        existsb is_add_path before = false /\
        binary = dir +++ "/govulners"
  | Thrown _ =>
      existsb is_add_path (trace (installGovulners w version)) = false
  end.
Proof.
  unfold installGovulners. cbv zeta. rewrite bind_emit.
  destruct (truthy (cache_find w govulnersBinary version)); cbn [negb].
  { rewrite bind_ret, bind_emit.
    by exists [EvCacheFind govulnersBinary version],
      (cache_find w govulnersBinary version). }
  assert (Hdl : existsb is_add_path (trace (downloadGovulners w version)) = false).
  { unfold downloadGovulners. cbv zeta.
    repeat (apply plain_bind;
            [first [by apply plain_emit | apply plain_answer
                   | by apply exec_plain]
            |intros ?]).
    apply plain_answer. }
  destruct (downloadGovulners w version) as [t [dir|message]].
  - rewrite bind_done, bind_emit. cbn [trace fst] in Hdl.
    exists (EvCacheFind govulnersBinary version :: t), dir.
    split; [|split]; [|cbn; exact Hdl|reflexivity].
    unfold prepend; cbn. reflexivity.
  - cbn [trace fst] in Hdl. cbn. exact Hdl.
Qed.

(** ** Scans that do not complete *)

Lemma runScan_install_thrown w o message :
  valid_options o = true ->
  outcome (installGovulners w (govulnersVersion w)) = Thrown message ->
  runScan w o =
    (trace (registryEnv w) ++
     EvDebug ("Installing govulners version " +++ govulnersVersion w) ::
     trace (installGovulners w (govulnersVersion w)),
     Thrown message).
Proof.
  intros [Hsev Hfmt]%andb_prop Hinstall.
  unfold runScan. cbv zeta.
  rewrite (bind_returned _ _ _ (registryEnv_outcome w)).
  rewrite Hsev, Hfmt. cbn [negb].
  rewrite !bind_ret, bind_emit, (bind_thrown _ _ _ Hinstall).
  reflexivity.
Qed.

Section Loud.
Variable P : Event -> bool.
Hypothesis P_debug : forall m, P (EvDebug m) = false.
Hypothesis P_info : forall m, P (EvInfo m) = false.
Hypothesis P_warning : forall m, P (EvWarning m) = false.
Hypothesis P_start : forall n, P (EvStartGroup n) = false.
Hypothesis P_end : P EvEndGroup = false.
Hypothesis P_find : forall t v, P (EvCacheFind t v) = false.
Hypothesis P_download : forall u, P (EvDownloadTool u) = false.
Hypothesis P_file : forall f t n v, P (EvCacheFile f t n v) = false.
Hypothesis P_path : forall d, P (EvAddPath d) = false.
Hypothesis P_exec : forall c a e, P (EvExec c a e) = false.

Lemma setup_trace_silent w o : existsb P (setup_trace w o) = false.
Proof.
  destruct (setup_trace_plain P) with (w := w) (o := o)
    as (rest & -> & Hrest); try done.
  by rewrite existsb_app, registryEnv_plain, Hrest.
Qed.

(** An event of a kind that only the report and the verdict can leave
    shows that the scan completed. *)
Lemma runScan_loud_completed w o :
  existsb P (trace (runScan w o)) = true ->
  exists p code output,
    valid_options o = true /\
    outcome (installGovulners w (govulnersVersion w)) = Returned p /\
    spawn w govulnersBinary (scan_args (isDebug w) o) (Some (scan_env w))
      = Exited code output /\
    existsb P
      (trace (writeReport (outputFormat o) (captured output) ∅) ++
       trace (reportExitCode code (severityCutoff o) (flag (failBuild o))))
      = true.
Proof.
  intros Hloud.
  destruct (some_equal SEVERITY_LIST (severityCutoff o)) eqn:Hsev.
  2: { rewrite (runScan_invalid_severity _ _ Hsev), trace_pair in Hloud.
       rewrite registryEnv_plain in Hloud; done. }
  destruct (some_equal FORMAT_LIST (outputFormat o)) eqn:Hfmt.
  2: { rewrite (runScan_invalid_format _ _ Hsev Hfmt), trace_pair in Hloud.
       rewrite registryEnv_plain in Hloud; done. }
  assert (Hvalid : valid_options o = true)
    by (unfold valid_options; by rewrite Hsev, Hfmt).
  destruct (outcome (installGovulners w (govulnersVersion w)))
    as [p|message] eqn:Hinstall.
  2: { rewrite (runScan_install_thrown _ _ _ Hvalid Hinstall), trace_pair in Hloud.
       rewrite existsb_app in Hloud. cbn [existsb] in Hloud.
       rewrite registryEnv_plain, P_debug, installGovulners_plain in Hloud; done. }
  destruct (spawn w govulnersBinary (scan_args (isDebug w) o) (Some (scan_env w)))
    as [message debug|code output] eqn:Hspawn.
  { rewrite (runScan_spawn_failed _ _ _ _ _ Hvalid Hinstall Hspawn), trace_pair
      in Hloud.
    rewrite !existsb_app in Hloud. cbn [existsb] in Hloud.
    rewrite setup_trace_silent, P_exec, P_end, debug_events_plain in Hloud;
      done. }
  exists p, code, output. repeat (split; [done|]).
  rewrite (runScan_completed _ _ _ _ _ Hvalid Hinstall Hspawn), trace_pair
    in Hloud.
  rewrite !existsb_app in Hloud. cbn [existsb] in Hloud.
  rewrite setup_trace_silent, P_exec, capture_trace_plain in Hloud by done.
  cbn [orb] in Hloud. by rewrite existsb_app.
Qed.
End Loud.

(** X5.  When the installation fails, [runScan] throws its error right
    after it: the scanner is not started, no log group is opened, no
    report is written and [core.setFailed] is not called by [runScan]. *)
Theorem install_failure_stops_scan (w : World) (o : ScanOptions)
    (message : string) :
  valid_options o = true ->
  outcome (installGovulners w (govulnersVersion w)) = Thrown message ->
  outcome (runScan w o) = Thrown message /\
  trace (runScan w o) =
    trace (registryEnv w) ++
    EvDebug ("Installing govulners version " +++ govulnersVersion w) ::
    trace (installGovulners w (govulnersVersion w)) /\
  (forall name, ~ In (EvStartGroup name) (trace (runScan w o))) /\
  existsb is_write (trace (runScan w o)) = false /\
  marked_failed (trace (runScan w o)) = false.
Proof.
  intros Hvalid Hinstall.
  rewrite (runScan_install_thrown _ _ _ Hvalid Hinstall).
  rewrite trace_pair, outcome_pair.
  split; [done|]. split; [done|].
  assert (Hplain : forall P : Event -> bool,
    (forall m, P (EvDebug m) = false) ->
    (forall m, P (EvWarning m) = false) ->
    (forall t v, P (EvCacheFind t v) = false) ->
    (forall u, P (EvDownloadTool u) = false) ->
    (forall f t n v, P (EvCacheFile f t n v) = false) ->
    (forall d, P (EvAddPath d) = false) ->
    (forall c a e, P (EvExec c a e) = false) ->
    existsb P
      (trace (registryEnv w) ++
       EvDebug ("Installing govulners version " +++ govulnersVersion w) ::
       trace (installGovulners w (govulnersVersion w))) = false).
  { intros P Hdebug Hwarn ? ? ? ? ?. rewrite existsb_app. cbn [existsb].
    by rewrite registryEnv_plain, Hdebug, installGovulners_plain by done. }
  split; [|split].
  - intros name Hin.
    apply (existsb_false_In
             (fun e => match e with EvStartGroup _ => true | _ => false end))
      in Hin; [done|]. by apply Hplain.
  - by apply Hplain.
  - by apply Hplain.
Qed.

Lemma install_failure_stops_scan_witness :
  runScan (offline_host []) (sample_options "medium" "sarif" "true") =
    ([EvDebug "Installing govulners version v0.1.0";
      EvCacheFind "govulners" "v0.1.0";
      EvDebug "Installing v0.1.0";
      EvDownloadTool
        "https://raw.githubusercontent.com/nextlinux/govulners/main/install.sh"],
     Thrown "getaddrinfo ENOTFOUND").
Proof.
  destruct (install_failure_stops_scan (offline_host [])
              (sample_options "medium" "sarif" "true") "getaddrinfo ENOTFOUND")
    as (Hout & Htrace & _); [reflexivity | reflexivity |].
  rewrite <- (act_eta (runScan _ _)).
  unfold outcome in Hout. unfold trace in Htrace.
  rewrite Hout, Htrace. reflexivity.
Defined.

(** X6.  When the scanner cannot be started, [runScan] throws that error;
    whatever [exec.exec] had sent to the debug listener before the start
    failed is logged with [core.debug], the log group that was opened is
    closed again as the last event, and no report is written, nothing is
    returned and [core.setFailed] is not called by [runScan]. *)
Theorem spawn_failure_closes_group (w : World) (o : ScanOptions)
    (p message : string) (debug : list string) :
  valid_options o = true ->
  outcome (installGovulners w (govulnersVersion w)) = Returned p ->
  spawn w govulnersBinary (scan_args (isDebug w) o) (Some (scan_env w))
    = SpawnFailed message debug ->
  outcome (runScan w o) = Thrown message /\
  (exists before,
     trace (runScan w o) =
       before ++
       [EvStartGroup "govulners output...";
        EvInfo ("Executing: govulners " +++ join " " (scan_args (isDebug w) o));
        EvExec "govulners" (scan_args (isDebug w) o) (Some (scan_env w))] ++
       map EvDebug debug ++ [EvEndGroup]) /\
  existsb is_write (trace (runScan w o)) = false /\
  marked_failed (trace (runScan w o)) = false.
Proof.
  intros Hvalid Hinstall Hspawn.
  rewrite (runScan_spawn_failed _ _ _ _ _ Hvalid Hinstall Hspawn).
  rewrite trace_pair, outcome_pair.
  split; [done|]. split.
  - exists (trace (registryEnv w) ++
      [EvDebug ("Installing govulners version " +++ govulnersVersion w)] ++
      trace (installGovulners w (govulnersVersion w)) ++
      [ EvDebug ("Source: " +++ source o);
        EvDebug ("Fail Build: " +++ of_bool (flag (failBuild o)));
        EvDebug ("Severity Cutoff: " +++ severityCutoff o);
        EvDebug ("Only Fixed: " +++ of_bool (flag (onlyFixed o)));
        EvDebug ("Add Missing CPEs: " +++ of_bool (flag (addCpesIfNone o)));
        EvDebug ("Output Format: " +++ outputFormat o);
        EvDebug "Creating options for GOVULNERS analyzer" ]).
    unfold setup_trace. rewrite <- !app_assoc. reflexivity.
  - split.
    + rewrite !existsb_app.
      by rewrite setup_trace_no_write, debug_events_plain.
    + unfold marked_failed. rewrite !existsb_app.
      fold (marked_failed (setup_trace w o)).
      by rewrite setup_trace_not_failed, debug_events_plain.
Qed.

Lemma spawn_failure_closes_group_witness :
  outcome (runScan (broken_host []) (sample_options "medium" "sarif" "true")) =
    Thrown "spawn ENOENT".
Proof.
  apply (spawn_failure_closes_group (broken_host [])
           (sample_options "medium" "sarif" "true")
           "/opt/hostedtoolcache/govulners/0.1.0/x64/govulners" "spawn ENOENT"
           ["exec tool: /usr/bin/tool"; "arguments:"]);
    reflexivity.
Defined.

(** X7.  [runScan] calls [core.setFailed] only as the verdict of a
    completed scan: if its trace holds a failure, the request was valid,
    the installation succeeded, the scanner exited with a positive code,
    [failBuild] is true and [runScan] returned its outputs.  Its own
    errors are thrown, never reported with [core.setFailed]. *)
Theorem setFailed_only_as_verdict (w : World) (o : ScanOptions) :
  marked_failed (trace (runScan w o)) = true ->
  valid_options o = true /\
  flag (failBuild o) = true /\
  exists p code output out,
    outcome (installGovulners w (govulnersVersion w)) = Returned p /\
    spawn w govulnersBinary (scan_args (isDebug w) o) (Some (scan_env w))
      = Exited code output /\
    code > 0 /\
    outcome (runScan w o) = Returned out.
Proof.
  intros Hfailed.
  destruct (runScan_loud_completed is_failure) with (w := w) (o := o)
    as (p & code & output & Hvalid & Hinstall & Hspawn & Hloud); try done.
  split; [exact Hvalid|].
  rewrite existsb_app in Hloud.
  fold (marked_failed (trace (writeReport (outputFormat o) (captured output) ∅)))
    in Hloud.
  rewrite writeReport_not_failed in Hloud. cbn [orb] in Hloud.
  unfold reportExitCode in Hloud.
  destruct (Z.gtb_spec code 0) as [Hcode|]; [|discriminate].
  destruct (truthy (severityCutoff o)); cbn [negb] in Hloud; [|discriminate].
  destruct (flag (failBuild o)) eqn:Hflag; [|discriminate].
  split; [done|].
  destruct (writeReport_returns (outputFormat o) (captured output) ∅)
    as [out Hout].
  exists p, code, output, out. repeat (split; [done || lia|]).
  by rewrite (runScan_completed _ _ _ _ _ Hvalid Hinstall Hspawn), outcome_pair.
Qed.

Lemma setFailed_only_as_verdict_witness :
  flag (failBuild (sample_options "high" "json" "TRUE")) = true.
Proof.
  apply (setFailed_only_as_verdict (cached_host [] false 2 sample_output)
           (sample_options "high" "json" "TRUE")).
  reflexivity.
Defined.

(** X8.  [runScan] writes a file only as the report of a completed scan
    whose format is exactly [sarif] or [json]: a write in its trace shows
    that the scanner exited (with any code) and that [runScan] returned. *)
Theorem write_only_as_report (w : World) (o : ScanOptions) :
  existsb is_write (trace (runScan w o)) = true ->
  (outputFormat o = "sarif" \/ outputFormat o = "json") /\
  exists p code output out,
    outcome (installGovulners w (govulnersVersion w)) = Returned p /\
    spawn w govulnersBinary (scan_args (isDebug w) o) (Some (scan_env w))
      = Exited code output /\
    outcome (runScan w o) = Returned out.
Proof.
  intros Hwrite.
  destruct (runScan_loud_completed is_write) with (w := w) (o := o)
    as (p & code & output & Hvalid & Hinstall & Hspawn & Hloud); try done.
  rewrite existsb_app, reportExitCode_no_write, orb_false_r in Hloud.
  split.
  - unfold writeReport, strict_eq in Hloud.
    destruct (String.eqb_spec (outputFormat o) "sarif"); [by left|].
    destruct (String.eqb_spec (outputFormat o) "json"); [by right|].
    discriminate.
  - destruct (writeReport_returns (outputFormat o) (captured output) ∅)
      as [out Hout].
    exists p, code, output, out. repeat (split; [done|]).
    by rewrite (runScan_completed _ _ _ _ _ Hvalid Hinstall Hspawn), outcome_pair.
Qed.

Lemma write_only_as_report_witness :
  outputFormat (sample_options "high" "json" "true") = "sarif" \/
  outputFormat (sample_options "high" "json" "true") = "json".
Proof.
  apply (write_only_as_report (cached_host [] false 2 sample_output)
           (sample_options "high" "json" "true")).
  reflexivity.
Defined.

(** X9.  An exit code that is zero or negative gets no verdict: the
    completed scan is not marked failed, and the only warning its trace
    can hold is the one about the registry credentials. *)
Theorem no_verdict_unless_positive (w : World) (o : ScanOptions) (p : string)
    (code : Z) (output : list Chunk) :
  valid_options o = true ->
  outcome (installGovulners w (govulnersVersion w)) = Returned p ->
  spawn w govulnersBinary (scan_args (isDebug w) o) (Some (scan_env w))
    = Exited code output ->
  code <= 0 ->
  marked_failed (trace (runScan w o)) = false /\
  (forall message, In (EvWarning message) (trace (runScan w o)) ->
     message = credentials_warning /\ one_credential w = true) /\
  exists before,
    trace (runScan w o) =
      before ++ trace (writeReport (outputFormat o) (captured output) ∅).
Proof.
  intros Hvalid Hinstall Hspawn Hcode.
  rewrite (runScan_completed _ _ _ _ _ Hvalid Hinstall Hspawn), trace_pair.
  assert (Hnone : reportExitCode code (severityCutoff o) (flag (failBuild o))
                  = ([], Returned tt)).
  { unfold reportExitCode. by destruct (Z.gtb_spec code 0); [lia|]. }
  rewrite Hnone, trace_pair, app_nil_r.
  split; [apply completed_prefix_not_failed|].
  split; [intros message; apply completed_prefix_warnings|].
  eexists. by rewrite !app_assoc.
Qed.

Lemma no_verdict_unless_positive_witness :
  marked_failed
    (trace (runScan (cached_host [] false (-1) sample_output)
              (sample_options "high" "json" "true"))) = false.
Proof.
  apply (no_verdict_unless_positive (cached_host [] false (-1) sample_output)
           (sample_options "high" "json" "true")
           "/opt/hostedtoolcache/govulners/0.1.0/x64/govulners"
           (-1) sample_output);
    [reflexivity | reflexivity | reflexivity | lia].
Defined.

(** ** The entry points *)

Lemma run_unfold w :
  run w =
    try_catch
      (emit (EvDebug (now w)) ;;
       source ← sourceInput w ;
       out ← runScan w (run_options w source) ;
       emit_all (map (fun kv => EvSetOutput (fst kv) (snd kv)) (map_to_list out)))
      (fun message => emit (EvSetFailed message)).
Proof. reflexivity. Qed.

Lemma sourceInput_outcome w :
  (exists s, sourceInput w = mret s) \/
  sourceInput w =
    throw "The following options are mutually exclusive: image, path, sbom".
Proof.
  unfold sourceInput. cbv zeta.
  destruct (multipleDefined _); [by right|left].
  destruct (truthy (getInput w "image")); [by eexists|].
  destruct (truthy (getInput w "sbom")); by eexists.
Qed.

Lemma run_scan_returned w s out :
  sourceInput w = mret s ->
  outcome (runScan w (run_options w s)) = Returned out ->
  run w =
    (EvDebug (now w) :: trace (runScan w (run_options w s)) ++
     map (fun kv => EvSetOutput (fst kv) (snd kv)) (map_to_list out),
     Returned tt).
Proof.
  intros Hsource Hscan. rewrite run_unfold.
  rewrite bind_emit, Hsource, bind_ret, (bind_returned _ _ _ Hscan).
  reflexivity.
Qed.

Lemma run_scan_thrown w s message :
  sourceInput w = mret s ->
  outcome (runScan w (run_options w s)) = Thrown message ->
  run w =
    (EvDebug (now w) :: trace (runScan w (run_options w s)) ++
     [EvSetFailed message],
     Returned tt).
Proof.
  intros Hsource Hscan. rewrite run_unfold.
  rewrite bind_emit, Hsource, bind_ret, (bind_thrown _ _ _ Hscan).
  reflexivity.
Qed.

(** X10.  [run] never throws: whatever the inputs and the host answer,
    it returns, and an error of the source resolution or of the scan
    becomes one [core.setFailed] with the message of the error as the
    last event, with no output set. *)
Theorem run_never_throws (w : World) :
  outcome (run w) = Returned tt /\
  (forall s message,
     sourceInput w = mret s ->
     outcome (runScan w (run_options w s)) = Thrown message ->
     trace (run w) =
       EvDebug (now w) :: trace (runScan w (run_options w s)) ++
       [EvSetFailed message] /\
     existsb is_set_output (trace (run w)) = false).
Proof.
  split.
  - destruct (sourceInput_outcome w) as [[s Hsource]|Hsource].
    + destruct (outcome (runScan w (run_options w s))) as [out|message] eqn:Hscan.
      * by rewrite (run_scan_returned _ _ _ Hsource Hscan).
      * by rewrite (run_scan_thrown _ _ _ Hsource Hscan).
    + rewrite run_unfold, bind_emit, Hsource, bind_throw. reflexivity.
  - intros s message Hsource Hscan.
    rewrite (run_scan_thrown _ _ _ Hsource Hscan), trace_pair.
    split; [done|].
    cbn [existsb is_set_output orb]. rewrite existsb_app. cbn.
    rewrite orb_false_r.
    destruct (existsb is_set_output (trace (runScan w (run_options w s))))
      eqn:Hset; [|done].
    destruct (runScan_loud_completed is_set_output) with (w := w)
      (o := run_options w s)
      as (p & code & output & Hvalid & Hinstall & Hspawn & _); try done.
    rewrite (runScan_completed _ _ _ _ _ Hvalid Hinstall Hspawn), outcome_pair
      in Hscan.
    destruct (writeReport_returns (outputFormat (run_options w s))
                (captured output) ∅) as [out Hout].
    congruence.
Qed.

(** X11.  After a completed scan [run] publishes exactly the report it
    wrote: the output [sarif] or [json] with the path of the file as the
    last event, and no output for any other format.  This also holds
    when the scan marked the run failed: the output is set after
    [core.setFailed]. *)
Theorem run_publishes_report (w : World) (s p : string) (code : Z)
    (output : list Chunk) :
  sourceInput w = mret s ->
  valid_options (run_options w s) = true ->
  outcome (installGovulners w (govulnersVersion w)) = Returned p ->
  spawn w govulnersBinary (scan_args (isDebug w) (run_options w s))
    (Some (scan_env w)) = Exited code output ->
  trace (run w) =
    EvDebug (now w) :: trace (runScan w (run_options w s)) ++
    (if strict_eq (outputFormat (run_options w s)) "sarif"
     then [EvSetOutput "sarif" "./results.sarif"]
     else if strict_eq (outputFormat (run_options w s)) "json"
     then [EvSetOutput "json" "./results.json"]
     else []) /\
  existsb is_set_output (trace (runScan w (run_options w s))) = false.
Proof.
  intros Hsource Hvalid Hinstall Hspawn.
  pose proof (runScan_completed _ _ _ _ _ Hvalid Hinstall Hspawn) as Hscan.
  split.
  - assert (Hout : outcome (runScan w (run_options w s)) =
        outcome (writeReport (outputFormat (run_options w s))
                   (captured output) ∅))
      by (by rewrite Hscan).
    unfold writeReport in Hout.
    destruct (strict_eq (outputFormat (run_options w s)) "sarif");
      [|destruct (strict_eq (outputFormat (run_options w s)) "json")];
      rewrite (run_scan_returned _ _ _ Hsource Hout), trace_pair;
      by rewrite ?insert_empty, ?map_to_list_singleton, ?map_to_list_empty.
  - destruct (existsb is_set_output (trace (runScan w (run_options w s))))
      eqn:Hset; [|done].
    destruct (runScan_loud_completed is_set_output) with (w := w)
      (o := run_options w s)
      as (_ & code' & output' & _ & _ & _ & Hloud); try done.
    rewrite existsb_app in Hloud.
    assert (Hreport : forall f d,
      existsb is_set_output (trace (writeReport f d ∅)) = false).
    { intros f d. unfold writeReport.
      destruct (strict_eq f "sarif"); [done|]. by destruct (strict_eq f "json"). }
    assert (Hverdict : forall c v b,
      existsb is_set_output (trace (reportExitCode c v b)) = false).
    { intros c v b. unfold reportExitCode.
      by destruct (c >? 0), (truthy v), b. }
    by rewrite Hreport, Hverdict in Hloud.
Qed.

Lemma run_publishes_report_witness :
  trace (run (cached_host [("image", "alpine:3.18")] false 2 sample_output)) =
    EvDebug "12:00:00 GMT+0000 (Coordinated Universal Time)" ::
    trace (runScan (cached_host [("image", "alpine:3.18")] false 2 sample_output)
             (run_options
                (cached_host [("image", "alpine:3.18")] false 2 sample_output)
                "alpine:3.18")) ++
    [EvSetOutput "sarif" "./results.sarif"].
Proof.
  apply (run_publishes_report
           (cached_host [("image", "alpine:3.18")] false 2 sample_output)
           "alpine:3.18" "/opt/hostedtoolcache/govulners/0.1.0/x64/govulners"
           2 sample_output);
    reflexivity.
Defined.

(** X12.  With none of the inputs set, [run] scans the current directory
    with the defaults of the action: [failBuild] is on and the scanner
    is started with [-o sarif --fail-on medium dir:.] (after [-vv] in
    debug mode). *)
Theorem run_defaults (w : World) (p : string) :
  getInput w "image" = "" -> getInput w "path" = "" -> getInput w "sbom" = "" ->
  getInput w "fail-build" = "" -> getInput w "output-format" = "" ->
  getInput w "severity-cutoff" = "" -> getInput w "only-fixed" = "" ->
  getInput w "add-cpes-if-none" = "" ->
  outcome (installGovulners w (govulnersVersion w)) = Returned p ->
  sourceInput w = mret "dir:." /\
  flag (failBuild (run_options w "dir:.")) = true /\
  exists before env after,
    trace (run w) =
      before ++
      EvExec "govulners"
        ((if isDebug w then ["-vv"] else []) ++
         ["-o"; "sarif"; "--fail-on"; "medium"; "dir:."]) env
      :: after.
Proof.
  intros Himage Hpath Hsbom Hfail Hformat Hcutoff Hfixed Hcpes Hinstall.
  assert (Hsource : sourceInput w = mret "dir:.").
  { unfold sourceInput. by rewrite Himage, Hpath, Hsbom. }
  assert (Hoptions : run_options w "dir:." =
    {| source := "dir:."; failBuild := "true"; severityCutoff := "medium";
       onlyFixed := "false"; outputFormat := "sarif";
       addCpesIfNone := "false" |}).
  { unfold run_options. by rewrite Hfail, Hformat, Hcutoff, Hfixed, Hcpes. }
  split; [exact Hsource|]. split; [by rewrite Hoptions|].
  assert (Hvalid : valid_options (run_options w "dir:.") = true)
    by (by rewrite Hoptions).
  destruct (runScan_started _ _ _ Hvalid Hinstall) as (after & Htrace & _).
  assert (Hargs : scan_args (isDebug w) (run_options w "dir:.") =
    (if isDebug w then ["-vv"] else []) ++
    ["-o"; "sarif"; "--fail-on"; "medium"; "dir:."])
    by (by rewrite Hoptions).
  rewrite Hargs in Htrace.
  destruct (outcome (runScan w (run_options w "dir:."))) as [out|message] eqn:Hscan.
  - rewrite (run_scan_returned _ _ _ Hsource Hscan), trace_pair, Htrace.
    exists (EvDebug (now w) :: setup_trace w (run_options w "dir:.")),
      (Some (scan_env w)). eexists.
    rewrite <- app_assoc. reflexivity.
  - rewrite (run_scan_thrown _ _ _ Hsource Hscan), trace_pair, Htrace.
    exists (EvDebug (now w) :: setup_trace w (run_options w "dir:.")),
      (Some (scan_env w)). eexists.
    rewrite <- app_assoc. reflexivity.
Qed.

Lemma run_defaults_witness :
  exists before env after,
    trace (run (cached_host [] true 0 sample_output)) =
      before ++
      EvExec "govulners"
        ["-vv"; "-o"; "sarif"; "--fail-on"; "medium"; "dir:."] env
      :: after.
Proof.
  apply (run_defaults (cached_host [] true 0 sample_output)
           "/opt/hostedtoolcache/govulners/0.1.0/x64/govulners");
    reflexivity.
Defined.

(** X13.  As the main module with the input [run] equal to
    [download-govulners], the program only installs the scanner: it
    resolves no source, scans nothing, and on success reports the path
    of the binary with [core.info] and as the output [cmd]; a failed
    installation is an unhandled error and sets no output.  With any
    other value of the input the program is [run]. *)
Theorem main_dispatch (w : World) :
  (getInput w "run" = "download-govulners" ->
     match outcome (installGovulners w (govulnersVersion w)) with
     | Returned path =>
         main w =
           (trace (installGovulners w (govulnersVersion w)) ++
            [EvInfo ("Downloaded Govulners to: " +++ path);
             EvSetOutput "cmd" path],
            Returned tt)
     | Thrown message =>
         main w =
           (trace (installGovulners w (govulnersVersion w)), Thrown message)
     end /\
     existsb is_write (trace (main w)) = false /\
     marked_failed (trace (main w)) = false) /\
  (getInput w "run" <> "download-govulners" -> main w = run w).
Proof.
  split.
  - intros Hrun.
    assert (Hselect : strict_eq (getInput w "run") "download-govulners" = true)
      by (by rewrite Hrun).
    unfold main. cbv zeta. rewrite Hselect.
    assert (Hw : existsb is_write
                   (trace (installGovulners w (govulnersVersion w))) = false)
      by (by apply installGovulners_plain).
    assert (Hf : existsb is_failure
                   (trace (installGovulners w (govulnersVersion w))) = false)
      by (by apply installGovulners_plain).
    destruct (installGovulners w (govulnersVersion w)) as [t [path|message]];
      rewrite trace_pair in Hw, Hf; rewrite outcome_pair.
    + rewrite bind_done, bind_emit. unfold prepend; cbn [fst snd emit app].
      split; [done|]. unfold marked_failed. rewrite trace_pair.
      rewrite !existsb_app, Hw, Hf. done.
    + split; [done|]. unfold marked_failed.
      change (trace ((t, Thrown message) ≫= _)) with t. by rewrite Hw, Hf.
  - intros Hrun. unfold main, strict_eq. cbv zeta.
    by destruct (String.eqb_spec (getInput w "run") "download-govulners").
Qed.

(** ** Smaller parts *)

Lemma defined_count_permutation args args' :
  Permutation args args' -> defined_count args = defined_count args'.
Proof.
  unfold defined_count. induction 1 as [|a l l' _ IH|a b l|l l' l'' _ IH1 _ IH2].
  - done.
  - cbn. destruct (truthy a); cbn; by rewrite IH.
  - cbn. by destruct (truthy a), (truthy b).
  - congruence.
Qed.

(** X14.  For any number of arguments, [multipleDefined] is true exactly
    when at least two of them are non-empty; the order of the arguments
    does not matter. *)
Theorem multipleDefined_two_or_more (args : list string) :
  (multipleDefined args = true <-> (2 <= defined_count args)%nat) /\
  (forall args', Permutation args args' ->
     multipleDefined args' = multipleDefined args).
Proof.
  split.
  - rewrite multipleDefined_count. apply Nat.leb_le.
  - intros args' Hperm.
    by rewrite !multipleDefined_count, (defined_count_permutation _ _ Hperm).
Qed.

(** X16.  The environment of the scanner is the one of the action with
    the update check set to [false]: every other variable is inherited
    as it is, and when neither credential is given the two registry
    variables are inherited as well. *)
Theorem child_env_inherits (w : World) :
  exists env,
    outcome (registryEnv w) = Returned env /\
    env !! "GOVULNERS_CHECK_FOR_APP_UPDATE" = Some "false" /\
    (forall name,
       name <> "GOVULNERS_CHECK_FOR_APP_UPDATE" ->
       name <> "GOVULNERS_REGISTRY_AUTH_USERNAME" ->
       name <> "GOVULNERS_REGISTRY_AUTH_PASSWORD" ->
       env !! name = process_env w !! name) /\
    (getInput w "registry-username" = "" ->
     getInput w "registry-password" = "" ->
       env !! "GOVULNERS_REGISTRY_AUTH_USERNAME"
         = process_env w !! "GOVULNERS_REGISTRY_AUTH_USERNAME" /\
       env !! "GOVULNERS_REGISTRY_AUTH_PASSWORD"
         = process_env w !! "GOVULNERS_REGISTRY_AUTH_PASSWORD").
Proof.
  exists (scan_env w). split; [apply registryEnv_outcome|].
  split; [apply scan_env_update_check|]. split.
  - intros name Hcheck Huser Hpass. unfold scan_env. cbv zeta.
    destruct (truthy _ || truthy _); by rewrite !lookup_insert_ne by done.
  - intros Huser Hpass. unfold scan_env. cbv zeta. rewrite Huser, Hpass.
    cbn [truthy orb]. by rewrite !lookup_insert_ne by done.
Qed.

(** X17.  An image is passed on as it is, so the markers are not
    reserved: an image whose name begins with [dir:] or [sbom:] resolves
    to the same source as the path or the SBOM behind the marker. *)
Theorem source_markers_not_reserved (w1 w2 : World) (name : string) :
  truthy name = true ->
  getInput w1 "path" = "" -> getInput w1 "sbom" = "" ->
  getInput w2 "image" = "" ->
  (getInput w1 "image" = "dir:" +++ name ->
   getInput w2 "path" = name -> getInput w2 "sbom" = "" ->
   sourceInput w1 = sourceInput w2) /\
  (getInput w1 "image" = "sbom:" +++ name ->
   getInput w2 "path" = "" -> getInput w2 "sbom" = name ->
   sourceInput w1 = sourceInput w2).
Proof.
  intros Hname Hpath1 Hsbom1 Himage2.
  split; intros Himage1 Hpath2 Hsbom2; unfold sourceInput;
    rewrite Himage1, Hpath1, Hsbom1, Himage2, Hpath2, Hsbom2;
    cbn; by rewrite ?Hname.
Qed.

Lemma source_markers_not_reserved_witness :
  sourceInput (cached_host [("image", "sbom:bom.json")] false 0 []) =
  sourceInput (cached_host [("sbom", "bom.json")] false 0 []).
Proof.
  apply (source_markers_not_reserved
           (cached_host [("image", "sbom:bom.json")] false 0 [])
           (cached_host [("sbom", "bom.json")] false 0 []) "bom.json");
    reflexivity.
Defined.

(** X18.  The warning about the credentials comes before the checks of
    the options: with exactly one credential set it is the first event
    of every call of [runScan], also of one that is refused. *)
Theorem credentials_warning_comes_first (w : World) (o : ScanOptions) :
  one_credential w = true ->
  exists rest, trace (runScan w o) = EvWarning credentials_warning :: rest.
Proof.
  intros Hone. unfold runScan. cbv zeta.
  rewrite (bind_returned _ _ _ (registryEnv_outcome w)), trace_prepend.
  rewrite registryEnv_trace, Hone. by eexists.
Qed.

Lemma credentials_warning_comes_first_witness :
  exists rest,
    trace (runScan (cached_host [("registry-password", "s3cret")] false 0 [])
             (sample_options "none" "sarif" "true")) =
      EvWarning credentials_warning :: rest.
Proof.
  apply (credentials_warning_comes_first
           (cached_host [("registry-password", "s3cret")] false 0 [])
           (sample_options "none" "sarif" "true")).
  reflexivity.
Defined.
